(** * QR-login sessions and health suggestions: a shallow embedding of main.py

    The handlers of [main.py] are embedded as functions over an explicit
    [world]: the process-wide [qr_sessions] dictionary, the two SQLite
    tables and the files below [BASE_DIR].  A handler either returns a
    value or raises an exception; in both cases the world it leaves behind
    is part of the result, as in Python.

    Conventions.
    - A [datetime] is an integer number of microseconds; every call of
      [datetime.now()] in a handler is an argument of the embedded handler
      ([now0] is the call of the expiry check, the others follow in the
      order of the source).
    - A Python [str] is a Rocq [string], one character per code point
      (code points below 256).
    - [HTTPException] carries its status code; the [detail] texts are not
      modelled.
    - [uuid.uuid4()], the success of removing a file and the way the
      writing of a file ends are inputs of the handlers.
    - [files] is the set of the paths that exist below [BASE_DIR], written
      as the handlers build them, so that two paths are the same file
      exactly when they are the same string; what the files hold is not
      modelled.
    - The tables are the lists of their rows; of SQLite itself the model has
      what the handlers can run into: the ids AUTOINCREMENT hands out and
      the largest row id, and LIKE with its wildcards, its NUL-terminated
      reading of texts and its limit on the length of a pattern. *)

From Stdlib Require Import ZArith String Ascii List Lia Bool.
From Stdlib Require Import Sorting.Sorted Sorting.Permutation.
From stdpp Require Import base tactics option list gmap strings pretty.

Local Open Scope string_scope.
Local Open Scope Z_scope.

(** ** Exceptions and handlers *)

Inductive exn : Type :=
| HTTPException (status_code : Z)
| KeyError (key : string)
| AttributeError (attr : string)
| TypeError
| OSError
| OperationalError.       (* sqlite3.OperationalError *)

Inductive outcome (A : Type) : Type :=
| Return (a : A)
| Raise (e : exn).

Arguments Return {A} a.
Arguments Raise {A} e.

(** How the writing of a file ends: written to the end; failed with
    nothing changed on disk (the file could not be opened, or the library
    removed again what it had created); or failed after the file was opened
    for writing, which has created or truncated it. *)
Inductive write_result : Type :=
| Written
| NotCreated
| Partial.

(** ** Data model *)

(** One entry of [qr_sessions].  The keys ["is_confirmed"] and
    ["confirmed_at"] are absent until [confirm_qr_login] adds them;
    [user_info] is [None] or a dictionary of strings. *)
Record session : Type := {
  created_at : Z;
  expires_at : Z;
  is_bound : bool;
  user_info : option (gmap string string);
  is_confirmed : option bool;
  confirmed_at : option Z
}.

(** A row of the table [health_suggestions]. *)
Record HealthSuggestion : Type := {
  id : Z;
  title : string;
  content : string;
  author : string;
  tag : option string;
  image_url : option string;
  publish_time : string;
  user_id : option string;
  user_ip : option string
}.

(** A row of the table [user_sessions], keyed by [session_id]. *)
Record user_session_row : Type := {
  us_user_id : string;
  us_user_name : string;
  us_user_token : string;
  us_created_at : string;
  us_expires_at : string;
  us_is_active : Z
}.

Record world : Type := {
  qr_sessions : gmap string session;
  health_suggestions : list HealthSuggestion;
  sqlite_sequence : Z;
  user_sessions : gmap string user_session_row;
  files : gset string
}.

(** The request bodies and the parts of a [Request] the handlers read. *)
Record QRLoginRequest : Type := {
  session_id : string;
  req_user_id : string;
  req_user_name : string;
  req_user_token : string
}.

Record QRConfirmRequest : Type := {
  uuid : string;
  doctor_id : string
}.

Record Request : Type := {
  x_session_id : option string;   (* request.headers.get("X-Session-ID") *)
  client_host : option string     (* request.client.host, None without client *)
}.

Record UploadFile : Type := {
  content_type : option string;
  size : option Z;
  filename : option string
}.

(** ** The handler monad: state passing with exceptions *)

Definition handler (A : Type) : Type := world -> outcome A * world.

Definition ret {A} (a : A) : handler A := fun w => (Return a, w).

Definition raise {A} (e : exn) : handler A := fun w => (Raise e, w).

Definition bind {A B} (m : handler A) (k : A -> handler B) : handler B :=
  fun w => match m w with
           | (Return a, w') => k a w'
           | (Raise e, w') => (Raise e, w')
           end.

(** [try: m except <any exception> as e: h e] *)
Definition try_except {A} (m : handler A) (h : exn -> handler A) : handler A :=
  fun w => match m w with
           | (Return a, w') => (Return a, w')
           | (Raise e, w') => h e w'
           end.

Definition get_world : handler world := fun w => (Return w, w).

#[global] Instance handler_ret : MRet handler := @ret.
#[global] Instance handler_bind : MBind handler := fun A B k m => bind m k.

Definition when_raise (c : bool) (e : exn) : handler unit :=
  if c then raise e else ret tt.

(** The world with one component replaced. *)
Definition with_qr_sessions (m : gmap string session) (w : world) : world :=
  {| qr_sessions := m;
     health_suggestions := health_suggestions w;
     sqlite_sequence := sqlite_sequence w;
     user_sessions := user_sessions w;
     files := files w |}.

Definition with_user_sessions (m : gmap string user_session_row) (w : world)
  : world :=
  {| qr_sessions := qr_sessions w;
     health_suggestions := health_suggestions w;
     sqlite_sequence := sqlite_sequence w;
     user_sessions := m;
     files := files w |}.

Definition with_files (fs : gset string) (w : world) : world :=
  {| qr_sessions := qr_sessions w;
     health_suggestions := health_suggestions w;
     sqlite_sequence := sqlite_sequence w;
     user_sessions := user_sessions w;
     files := fs |}.

Definition with_table (rows : list HealthSuggestion) (seq : Z) (w : world)
  : world :=
  {| qr_sessions := qr_sessions w;
     health_suggestions := rows;
     sqlite_sequence := seq;
     user_sessions := user_sessions w;
     files := files w |}.

Definition set_qr_sessions (f : gmap string session -> gmap string session)
  : handler unit :=
  fun w => (Return tt, with_qr_sessions (f (qr_sessions w)) w).

Definition set_user_sessions
  (f : gmap string user_session_row -> gmap string user_session_row)
  : handler unit :=
  fun w => (Return tt, with_user_sessions (f (user_sessions w)) w).

Definition set_files (f : gset string -> gset string) : handler unit :=
  fun w => (Return tt, with_files (f (files w)) w).

Definition set_table (rows : list HealthSuggestion) (seq : Z) : handler unit :=
  fun w => (Return tt, with_table rows seq w).

(** [with open(path, "wb") as buffer: shutil.copyfileobj(...)], and
    [qr_image.save(path)].  [open] creates the file or truncates it, so the
    path exists from then on, also when the copy fails afterwards. *)
Definition write_file (path : string) (write_ok : write_result)
  : handler unit :=
  match write_ok with
  | Written => set_files (fun fs => {[ path ]} ∪ fs)
  | NotCreated => raise OSError
  | Partial => set_files (fun fs => {[ path ]} ∪ fs) ;; raise OSError
  end.

(** ** Python helpers *)

(** [timedelta(minutes=n)] in microseconds. *)
Definition timedelta_minutes (n : Z) : Z := n * 60 * 1000000.

(** Truth value of a string: [not s] holds for the empty string. *)
Definition str_truthy (s : string) : bool :=
  match s with EmptyString => false | String _ _ => true end.

(** Truth value of [session["user_info"]]: [None] and [{}] are false. *)
Definition dict_truthy (d : option (gmap string string)) : bool :=
  match d with
  | None => false
  | Some m => negb (bool_decide (m = ∅))
  end.

(** [d[k]] on a dictionary. *)
Definition getitem (d : gmap string string) (k : string) : handler string :=
  match d !! k with
  | Some v => ret v
  | None => raise (KeyError k)
  end.

(** [d[k]] where [d] may be [None], which is not subscriptable. *)
Definition subscript (d : option (gmap string string)) (k : string)
  : handler string :=
  match d with
  | None => raise TypeError
  | Some m => getitem m k
  end.

(** The prefix of the synthesized [user_name] in [confirm_login_page]; in
    the source it is a two-character CJK word followed by an underscore. *)
Definition doctor_prefix : string := "doctor_".

(** ** QR login *)

Section QRLogin.

(** [datetime.isoformat]. *)
Variable isoformat : Z -> string.

Record QRLoginResponse : Type := {
  resp_session_id : string;
  qr_code_data : string;
  qr_code_image_url : string;
  resp_expires_at : string
}.

(** [generate_qr_code]: [new_uuid] is [str(uuid.uuid4())], [qr_ok] tells
    how rendering and saving the image ended ([NotCreated] when the
    rendering fails, before [qr_image.save] opens the file). *)
Definition generate_qr_code (new_uuid : string) (now0 now1 : Z)
  (qr_ok : write_result) : handler QRLoginResponse :=
  let expires := now0 + timedelta_minutes 5 in
  set_qr_sessions (insert new_uuid
    {| created_at := now1; expires_at := expires; is_bound := false;
       user_info := None; is_confirmed := None; confirmed_at := None |}) ;;
  let data := "http://16.171.135.255/confirm-login?loginId=" +:+ new_uuid in
  url ← try_except
           (let qr_filename := "qr_code_" +:+ new_uuid +:+ ".png" in
            write_file ("qr_codes/" +:+ qr_filename) qr_ok ;;
            ret ("/qr_codes/" +:+ qr_filename))
           (fun _ => ret "");
  ret {| resp_session_id := new_uuid; qr_code_data := data;
         qr_code_image_url := url; resp_expires_at := isoformat expires |}.

Inductive confirm_page : Type :=
| PageError             (* {"error": ..., "status": "error"} *)
| PageExpired           (* {"error": ..., "status": "expired"} *)
| PageHtml (loginId : string).

(** [confirm_login_page], the page behind the scanned URL. *)
Definition confirm_login_page (loginId : string) (now0 : Z)
  : handler confirm_page :=
  w ← get_world;
  match qr_sessions w !! loginId with
  | None => ret PageError
  | Some sess =>
      if bool_decide (now0 > expires_at sess) then
        set_qr_sessions (delete loginId) ;;
        ret PageExpired
      else
        let short := String.substring 0 8 loginId in
        set_qr_sessions (insert loginId
          {| created_at := created_at sess; expires_at := expires_at sess;
             is_bound := true;
             user_info := Some (<["user_id" := "user_" +:+ short]>
                               (<["user_name" := doctor_prefix +:+ short]>
                               (<["user_token" := "token_" +:+ loginId]> ∅)));
             is_confirmed := is_confirmed sess;
             confirmed_at := confirmed_at sess |}) ;;
        ret (PageHtml loginId)
  end.

Inductive check_response : Type :=
| CheckSuccess (uuid : string) (doctor_id : string) (confirmed_at : string)
| CheckWaiting (uuid : string).

(** [check_qr_login], the polling endpoint of the front end. *)
Definition check_qr_login (uuid : string) (now0 now1 : Z)
  : handler check_response :=
  w ← get_world;
  match qr_sessions w !! uuid with
  | None => raise (HTTPException 404)
  | Some sess =>
      if bool_decide (now0 > expires_at sess) then
        set_qr_sessions (delete uuid) ;;
        raise (HTTPException 410)
      else if default false (is_confirmed sess) then
        match user_info sess with
        | None => raise (AttributeError "get")
        | Some info =>
            ret (CheckSuccess uuid (default "" (info !! "doctor_id"))
                   (isoformat (default now1 (confirmed_at sess))))
        end
      else ret (CheckWaiting uuid)
  end.

Inductive bind_response : Type :=
| BindSuccess.          (* {"status": "success", ...} *)

(** [bind_qr_login]: attaches the identity of the request to the session
    and mirrors it into the table [user_sessions]. *)
Definition bind_qr_login (request : QRLoginRequest) (now0 now1 : Z)
  : handler bind_response :=
  let sid := session_id request in
  w ← get_world;
  match qr_sessions w !! sid with
  | None => raise (HTTPException 404)
  | Some sess =>
      if bool_decide (now0 > expires_at sess) then
        set_qr_sessions (delete sid) ;;
        raise (HTTPException 410)
      else if is_bound sess then raise (HTTPException 400)
      else
        let info : gmap string string :=
          <["user_id" := req_user_id request]>
          (<["user_name" := req_user_name request]>
          (<["user_token" := req_user_token request]> ∅)) in
        set_qr_sessions (insert sid
          {| created_at := created_at sess; expires_at := expires_at sess;
             is_bound := true; user_info := Some info;
             is_confirmed := is_confirmed sess;
             confirmed_at := confirmed_at sess |}) ;;
        set_user_sessions (insert sid
          {| us_user_id := req_user_id request;
             us_user_name := req_user_name request;
             us_user_token := req_user_token request;
             us_created_at := isoformat now1;
             us_expires_at := isoformat (expires_at sess);
             us_is_active := 1 |}) ;;
        ret BindSuccess
  end.

Inductive confirm_response : Type :=
| ConfirmSuccess (uuid : string) (doctor_id : string).

(** [confirm_qr_login], called by the scanning app. *)
Definition confirm_qr_login (request : QRConfirmRequest) (now0 now1 now2 : Z)
  : handler confirm_response :=
  let sid := uuid request in
  w ← get_world;
  match qr_sessions w !! sid with
  | None => raise (HTTPException 404)
  | Some sess =>
      if bool_decide (now0 > expires_at sess) then
        set_qr_sessions (delete sid) ;;
        raise (HTTPException 410)
      else
        set_qr_sessions (insert sid
          {| created_at := created_at sess; expires_at := expires_at sess;
             is_bound := true;
             user_info := Some (<["doctor_id" := doctor_id request]>
                               (<["login_time" := isoformat now2]> ∅));
             is_confirmed := Some true;
             confirmed_at := Some now1 |}) ;;
        ret (ConfirmSuccess sid (doctor_id request))
  end.

Inductive status_response : Type :=
| StatusConfirmed (loginId : string) (confirmed_at : string)
| StatusWaiting (loginId : string).

(** [get_qr_login_status], the polling endpoint of the web page; the query
    parameter [loginId] defaults to [None]. *)
Definition get_qr_login_status (loginId : option string) (now0 now1 : Z)
  : handler status_response :=
  match loginId with
  | None => raise (HTTPException 400)
  | Some lid =>
      if negb (str_truthy lid) then raise (HTTPException 400)
      else
        w ← get_world;
        match qr_sessions w !! lid with
        | None => raise (HTTPException 404)
        | Some sess =>
            if bool_decide (now0 > expires_at sess) then
              set_qr_sessions (delete lid) ;;
              raise (HTTPException 410)
            else if default false (is_confirmed sess) then
              ret (StatusConfirmed lid
                     (isoformat (default now1 (confirmed_at sess))))
            else ret (StatusWaiting lid)
        end
  end.

End QRLogin.

(** ** The authorization resolver *)

(** [get_user_from_session]: reads [qr_sessions], changes nothing. *)
Definition get_user_from_session (w : world) (session_id : string)
  : option (gmap string string) :=
  match qr_sessions w !! session_id with
  | None => None
  | Some sess =>
      if negb (is_bound sess) || negb (dict_truthy (user_info sess))
      then None
      else user_info sess
  end.

(** [get_user_from_request]: the session id comes from the header
    [X-Session-ID]. *)
Definition get_user_from_request (w : world) (request : Request)
  : option (gmap string string) :=
  match x_session_id request with
  | None => None
  | Some sid =>
      if negb (str_truthy sid) then None else get_user_from_session w sid
  end.

(** ** Strings *)

(** [str.isspace] on one character (code points below 256). *)
Definition isspace (c : ascii) : bool :=
  let n := N_of_ascii c in
  ((9 <=? n) && (n <=? 13) || (28 <=? n) && (n <=? 32)
   || (n =? 133) || (n =? 160))%N.

Fixpoint lstrip (s : string) : string :=
  match s with
  | EmptyString => EmptyString
  | String c s' => if isspace c then lstrip s' else s
  end.

Fixpoint rstrip (s : string) : string :=
  match s with
  | EmptyString => EmptyString
  | String c s' =>
      match rstrip s' with
      | EmptyString => if isspace c then EmptyString else String c EmptyString
      | r => String c r
      end
  end.

(** [s.strip()] *)
Definition strip (s : string) : string := rstrip (lstrip s).

(** [s.lstrip('/')] *)
Fixpoint lstrip_slash (s : string) : string :=
  match s with
  | EmptyString => EmptyString
  | String c s' => if Ascii.eqb c "/"%char then lstrip_slash s' else s
  end.

(** [s.startswith(p)] *)
Definition startswith (s p : string) : bool := String.prefix p s.

(** ** SQL LIKE, as SQLite evaluates it without ESCAPE clause: [%] stands
    for any run of characters, [_] for one character, and letters of the
    ASCII range are compared without regard to case. *)

Definition ascii_lower (c : ascii) : ascii :=
  let n := N_of_ascii c in
  if ((65 <=? n) && (n <=? 90))%N then ascii_of_N (n + 32) else c.

Definition char_eq_nocase (a b : ascii) : bool :=
  Ascii.eqb (ascii_lower a) (ascii_lower b).

Fixpoint like_chars (p : list ascii) : list ascii -> bool :=
  match p with
  | nil => fun s => match s with nil => true | _ :: _ => false end
  | c :: p' =>
      if Ascii.eqb c "%"%char then
        fix star (s : list ascii) : bool :=
          like_chars p' s || match s with nil => false | _ :: s' => star s' end
      else if Ascii.eqb c "_"%char then
        fun s => match s with nil => false | _ :: s' => like_chars p' s' end
      else
        fun s => match s with
                 | nil => false
                 | d :: s' => char_eq_nocase c d && like_chars p' s'
                 end
  end.

(** The part of a text before its first NUL character: SQLite's LIKE reads
    the pattern and the value as NUL-terminated strings. *)
Fixpoint until_nul (s : list ascii) : list ascii :=
  match s with
  | nil => nil
  | c :: s' => if Ascii.eqb c zero then nil else c :: until_nul s'
  end.

(** [value LIKE pattern] on non-NULL text. *)
Definition like (value pattern : string) : bool :=
  like_chars (until_nul (list_ascii_of_string pattern))
             (until_nul (list_ascii_of_string value)).

(** The number of bytes of a text in UTF-8 (code points below 256). *)
Fixpoint utf8_bytes (s : string) : Z :=
  match s with
  | EmptyString => 0
  | String c s' => (if (N_of_ascii c <? 128)%N then 1 else 2) + utf8_bytes s'
  end.

(** SQLITE_MAX_LIKE_PATTERN_LENGTH: a LIKE with a longer pattern fails. *)
Definition like_pattern_limit : Z := 50000.

(** The largest rowid; beyond it an INSERT fails. *)
Definition max_rowid : Z := 9223372036854775807.

(** [value LIKE pattern] inside a WHERE clause: NULL does not select. *)
Definition like_null (value : option string) (pattern : string) : bool :=
  match value with
  | None => false
  | Some v => like v pattern
  end.

(** ** The table health_suggestions *)

(** [SELECT ... WHERE id = ?] followed by [fetchone()]. *)
Definition select_by_id (rows : list HealthSuggestion) (suggestion_id : Z)
  : option HealthSuggestion :=
  List.find (fun r => id r =? suggestion_id) rows.

(** The rowid an [INSERT] gets in an AUTOINCREMENT table. *)
Definition max_id (rows : list HealthSuggestion) : Z :=
  fold_right Z.max 0 (map id rows).

Definition next_id (rows : list HealthSuggestion) (seq : Z) : Z :=
  Z.max (max_id rows) seq + 1.

(** [ORDER BY id DESC] *)
Fixpoint insert_desc (r : HealthSuggestion) (l : list HealthSuggestion)
  : list HealthSuggestion :=
  match l with
  | nil => r :: nil
  | x :: l' => if id x <=? id r then r :: l else x :: insert_desc r l'
  end.

Definition order_by_id_desc (l : list HealthSuggestion)
  : list HealthSuggestion :=
  fold_right insert_desc nil l.

(** [UPDATE health_suggestions SET title = ?, ... WHERE id = ?]; the
    columns [user_id] and [user_ip] are not in the SET list. *)
Definition update_row (suggestion_id : Z) (title' content' author' : string)
  (tag' image_url' : option string) (publish_time' : string)
  (r : HealthSuggestion) : HealthSuggestion :=
  if id r =? suggestion_id then
    {| id := id r; title := title'; content := content'; author := author';
       tag := tag'; image_url := image_url'; publish_time := publish_time';
       user_id := user_id r; user_ip := user_ip r |}
  else r.

(** [DELETE FROM health_suggestions WHERE id = ?] *)
Definition delete_rows (suggestion_id : Z) (rows : list HealthSuggestion)
  : list HealthSuggestion :=
  List.filter (fun r => negb (id r =? suggestion_id)) rows.

(** ** Health suggestions *)

Section Suggestions.

(** [datetime.strftime] and the extension part of [os.path.splitext]. *)
Variable strftime : Z -> string -> string.
Variable splitext_ext : string -> string.

(** [image.size and image.size > limit] *)
Definition too_large (image : UploadFile) (limit : Z) : bool :=
  match size image with
  | None => false
  | Some n => negb (n =? 0) && bool_decide (n > limit)
  end.

(** [not image.content_type.startswith('image/')]; without a content type
    the attribute access fails. *)
Definition not_an_image (image : UploadFile) : handler bool :=
  match content_type image with
  | None => raise (AttributeError "startswith")
  | Some ct => ret (negb (startswith ct "image/"))
  end.

(** [os.path.splitext(image.filename)[1] if image.filename else ".jpg"] *)
Definition file_extension (image : UploadFile) : string :=
  match filename image with
  | None => ".jpg"
  | Some f => if str_truthy f then splitext_ext f else ".jpg"
  end.

(** [if path.exists(): try: os.remove(path) except: pass] *)
Definition remove_if_exists (path : string) (remove_ok : bool)
  : handler unit :=
  w ← get_world;
  if bool_decide (path ∈ files w) && remove_ok
  then set_files (fun fs => fs ∖ {[ path ]})
  else ret tt.

(** [request.client.host if request.client else "unknown"] *)
Definition client_ip (request : Request) : string :=
  default "unknown" (client_host request).

(** [tag.strip() if tag else None] *)
Definition strip_tag (tag : option string) : option string :=
  match tag with
  | None => None
  | Some t => if str_truthy t then Some (strip t) else None
  end.

(** [not s or not s.strip()] *)
Definition blank (s : string) : bool :=
  negb (str_truthy s) || negb (str_truthy (strip s)).

(** [except HTTPException: raise / except Exception: raise HTTPException(500)] *)
Definition reraise_http (e : exn) : handler HealthSuggestion :=
  match e with
  | HTTPException _ => raise e
  | _ => raise (HTTPException 500)
  end.

(** [create_health_suggestion] *)
Definition create_health_suggestion (request : Request)
  (title content author : string) (tag : option string)
  (image : option UploadFile) (now_file now_publish : Z)
  (write_ok : write_result) : handler HealthSuggestion :=
  try_except
    (w ← get_world;
     let info := get_user_from_request w request in
     when_raise (negb (dict_truthy info)) (HTTPException 401) ;;
     when_raise (blank title) (HTTPException 400) ;;
     when_raise (blank content) (HTTPException 400) ;;
     when_raise (blank author) (HTTPException 400) ;;
     url ← match image with
           | None => ret None
           | Some img =>
               bad ← not_an_image img;
               when_raise bad (HTTPException 400) ;;
               when_raise (too_large img (2 * 1024 * 1024))
                 (HTTPException 413) ;;
               let timestamp := strftime now_file "%Y%m%d_%H%M%S" in
               let name := "health_suggestion_" +:+ timestamp
                             +:+ file_extension img in
               try_except
                 (write_file ("uploads/" +:+ name) write_ok ;;
                  ret (Some ("/uploads/" +:+ name)))
                 (fun _ => raise (HTTPException 500))
           end;
     let publish := strftime now_publish "%Y-%m-%d %H:%M:%S" in
     uid ← subscript info "user_id";
     w1 ← get_world;
     let new_id := next_id (health_suggestions w1) (sqlite_sequence w1) in
     when_raise (bool_decide (new_id > max_rowid)) OperationalError ;;
     let row :=
       {| id := new_id; title := strip title; content := strip content;
          author := strip author; tag := strip_tag tag; image_url := url;
          publish_time := publish; user_id := Some uid;
          user_ip := Some (client_ip request) |} in
     set_table (health_suggestions w1 ++ row :: nil) new_id ;;
     ret row)
    reraise_http.

(** [update_health_suggestion] *)
Definition update_health_suggestion (suggestion_id : Z) (request : Request)
  (title content author : string) (tag : option string)
  (image : option UploadFile) (now_file now_publish : Z)
  (remove_ok : bool) (write_ok : write_result) : handler HealthSuggestion :=
  w ← get_world;
  let info := get_user_from_request w request in
  when_raise (negb (dict_truthy info)) (HTTPException 401) ;;
  match select_by_id (health_suggestions w) suggestion_id with
  | None => raise (HTTPException 404)
  | Some row =>
      uid ← subscript info "user_id";
      when_raise (negb (bool_decide (Some uid = user_id row)))
        (HTTPException 403) ;;
      url ← match image with
            | None => ret (image_url row)
            | Some img =>
                match image_url row with
                | None => ret tt
                | Some old =>
                    if str_truthy old
                    then remove_if_exists (lstrip_slash old) remove_ok
                    else ret tt
                end ;;
                let timestamp := strftime now_file "%Y%m%d_%H%M%S" in
                let name := "health_suggestion_" +:+ timestamp +:+ "_"
                              +:+ pretty suggestion_id
                              +:+ file_extension img in
                try_except
                  (write_file ("uploads/" +:+ name) write_ok ;;
                   ret (Some ("/uploads/" +:+ name)))
                  (fun _ => raise (HTTPException 500))
            end;
      let publish := strftime now_publish "%Y-%m-%d %H:%M:%S" in
      w1 ← get_world;
      set_table
        (map (update_row suggestion_id title content author tag url publish)
             (health_suggestions w1))
        (sqlite_sequence w1) ;;
      ret {| id := suggestion_id; title := title; content := content;
             author := author; tag := tag; image_url := url;
             publish_time := publish; user_id := Some uid;
             user_ip := Some (client_ip request) |}
  end.

Inductive delete_response : Type :=
| DeleteSuccess.        (* {"message": ...} *)

(** [delete_health_suggestion] *)
Definition delete_health_suggestion (suggestion_id : Z) (request : Request)
  (remove_ok : bool) : handler delete_response :=
  w ← get_world;
  let info := get_user_from_request w request in
  when_raise (negb (dict_truthy info)) (HTTPException 401) ;;
  match select_by_id (health_suggestions w) suggestion_id with
  | None => raise (HTTPException 404)
  | Some row =>
      uid ← subscript info "user_id";
      when_raise (negb (bool_decide (Some uid = user_id row)))
        (HTTPException 403) ;;
      match image_url row with
      | None => ret tt
      | Some old =>
          if str_truthy old
          then remove_if_exists (lstrip_slash old) remove_ok
          else ret tt
      end ;;
      w1 ← get_world;
      set_table (delete_rows suggestion_id (health_suggestions w1))
        (sqlite_sequence w1) ;;
      ret DeleteSuccess
  end.

(** The WHERE clause of [search_health_suggestions]. *)
Definition search_where (keyword : string) (r : HealthSuggestion) : bool :=
  let pattern := "%" +:+ keyword +:+ "%" in
  like (title r) pattern || like (content r) pattern
  || like (author r) pattern || like_null (tag r) pattern.

(** [search_health_suggestions]: as soon as there is a row to test, a
    pattern of more than 50000 bytes makes the statement fail. *)
Definition search_health_suggestions (keyword : string)
  : handler (list HealthSuggestion) :=
  w ← get_world;
  let pattern := "%" +:+ keyword +:+ "%" in
  when_raise (match health_suggestions w with nil => false | _ :: _ => true end
              && bool_decide (utf8_bytes pattern > like_pattern_limit))
    OperationalError ;;
  ret (order_by_id_desc (List.filter (search_where keyword)
                           (health_suggestions w))).

Record upload_response : Type := {
  up_image_url : string;
  up_filename : string
}.

(** [upload_image]: the whole body is inside [try: ... except Exception]. *)
Definition upload_image (image : UploadFile) (now0 : Z)
  (write_ok : write_result) : handler upload_response :=
  try_except
    (bad ← not_an_image image;
     when_raise bad (HTTPException 400) ;;
     when_raise (too_large image (10 * 1024 * 1024)) (HTTPException 413) ;;
     let timestamp := strftime now0 "%Y%m%d_%H%M%S" in
     let name := "upload_" +:+ timestamp +:+ file_extension image in
     write_file ("uploads/" +:+ name) write_ok ;;
     ret {| up_image_url := "/uploads/" +:+ name; up_filename := name |})
    (fun _ => raise (HTTPException 500)).

End Suggestions.

(** ** Drivers: repeated polling, and the calls a client can make *)

(** The front end polls [check_qr_login] again and again; [polls] lists the
    clock readings of the successive calls. *)
Fixpoint check_many (isoformat : Z -> string) (uuid : string)
  (polls : list (Z * Z)) (w : world)
  : list (outcome check_response) * world :=
  match polls with
  | nil => (nil, w)
  | (now0, now1) :: rest =>
      let (r, w1) := check_qr_login isoformat uuid now0 now1 w in
      let (rs, w2) := check_many isoformat uuid rest w1 in
      (r :: rs, w2)
  end.

Fixpoint status_many (isoformat : Z -> string) (loginId : string)
  (polls : list (Z * Z)) (w : world)
  : list (outcome status_response) * world :=
  match polls with
  | nil => (nil, w)
  | (now0, now1) :: rest =>
      let (r, w1) := get_qr_login_status isoformat (Some loginId) now0 now1 w in
      let (rs, w2) := status_many isoformat loginId rest w1 in
      (r :: rs, w2)
  end.

(** One request to the service, with the inputs of its handler. *)
Inductive call : Type :=
| CallGenerate (new_uuid : string) (now0 now1 : Z) (qr_ok : write_result)
| CallConfirmPage (loginId : string) (now0 : Z)
| CallCheck (uuid : string) (now0 now1 : Z)
| CallBind (request : QRLoginRequest) (now0 now1 : Z)
| CallConfirm (request : QRConfirmRequest) (now0 now1 now2 : Z)
| CallStatus (loginId : option string) (now0 now1 : Z)
| CallCreate (request : Request) (title content author : string)
    (tag : option string) (image : option UploadFile)
    (now_file now_publish : Z) (write_ok : write_result)
| CallUpdate (suggestion_id : Z) (request : Request)
    (title content author : string) (tag : option string)
    (image : option UploadFile) (now_file now_publish : Z)
    (remove_ok : bool) (write_ok : write_result)
| CallDelete (suggestion_id : Z) (request : Request) (remove_ok : bool)
| CallSearch (keyword : string)
| CallUpload (image : UploadFile) (now0 : Z) (write_ok : write_result).

Section Service.

Variable isoformat : Z -> string.
Variable strftime : Z -> string -> string.
Variable splitext_ext : string -> string.

(** The world a call leaves behind, whether it returns or raises. *)
Definition after (c : call) (w : world) : world :=
  match c with
  | CallGenerate u n0 n1 ok => (generate_qr_code isoformat u n0 n1 ok w).2
  | CallConfirmPage l n0 => (confirm_login_page l n0 w).2
  | CallCheck u n0 n1 => (check_qr_login isoformat u n0 n1 w).2
  | CallBind r n0 n1 => (bind_qr_login isoformat r n0 n1 w).2
  | CallConfirm r n0 n1 n2 => (confirm_qr_login isoformat r n0 n1 n2 w).2
  | CallStatus l n0 n1 => (get_qr_login_status isoformat l n0 n1 w).2
  | CallCreate r t c a g i nf np ok =>
      (create_health_suggestion strftime splitext_ext r t c a g i nf np ok w).2
  | CallUpdate k r t c a g i nf np rok wok =>
      (update_health_suggestion strftime splitext_ext k r t c a g i nf np
         rok wok w).2
  | CallDelete k r rok => (delete_health_suggestion k r rok w).2
  | CallSearch kw => (search_health_suggestions kw w).2
  | CallUpload i n0 ok => (upload_image strftime splitext_ext i n0 ok w).2
  end.

(** The worlds of a running process: [qr_sessions] starts empty (the tables
    and the files survive restarts and start in any state), then calls are
    served one after the other. *)
Inductive reachable : world -> Prop :=
| reachable_start (w : world) :
    qr_sessions w = ∅ -> reachable w
| reachable_call (c : call) (w : world) :
    reachable w -> reachable (after c w).

End Service.

(** ** Concrete data for the examples *)

Definition example_isoformat (t : Z) : string := pretty t.

Definition example_strftime (t : Z) (fmt : string) : string := pretty t.

Definition example_splitext_ext (f : string) : string := ".png".

Definition empty_world : world :=
  {| qr_sessions := ∅; health_suggestions := nil; sqlite_sequence := 0;
     user_sessions := ∅; files := ∅ |}.

Definition example_bind_request : QRLoginRequest :=
  {| session_id := "s1"; req_user_id := "u1"; req_user_name := "Ann";
     req_user_token := "tok1" |}.

(** A session generated at time 0, hence expiring at 300000000. *)
Definition world_generated : world :=
  (generate_qr_code example_isoformat "s1" 0 0 Written empty_world).2.

(** The same session after a bind at time 1. *)
Definition world_bound : world :=
  (bind_qr_login example_isoformat example_bind_request 1 1 world_generated).2.

(** ** The records the session operations write *)

Section Written.

Variable isoformat : Z -> string.

(** The identity a bind attaches: the three fields of the request. *)
Definition bound_identity (req : QRLoginRequest) : gmap string string :=
  <["user_id" := req_user_id req]>
  (<["user_name" := req_user_name req]>
  (<["user_token" := req_user_token req]> ∅)).

Definition bound_session (req : QRLoginRequest) (sess : session) : session :=
  {| created_at := created_at sess; expires_at := expires_at sess;
     is_bound := true; user_info := Some (bound_identity req);
     is_confirmed := is_confirmed sess; confirmed_at := confirmed_at sess |}.

Definition bound_row (req : QRLoginRequest) (sess : session) (n1 : Z)
  : user_session_row :=
  {| us_user_id := req_user_id req; us_user_name := req_user_name req;
     us_user_token := req_user_token req; us_created_at := isoformat n1;
     us_expires_at := isoformat (expires_at sess); us_is_active := 1 |}.

(** The identity a confirm attaches. *)
Definition confirmed_identity (req : QRConfirmRequest) (n2 : Z)
  : gmap string string :=
  <["doctor_id" := doctor_id req]> (<["login_time" := isoformat n2]> ∅).

Definition confirmed_session (req : QRConfirmRequest) (sess : session)
  (n1 n2 : Z) : session :=
  {| created_at := created_at sess; expires_at := expires_at sess;
     is_bound := true; user_info := Some (confirmed_identity req n2);
     is_confirmed := Some true; confirmed_at := Some n1 |}.

End Written.

(** ** Predicates of the statements *)



(** A handler that leaves an observation [obs] of the world as it found
    it, whether it returns or raises. *)
Definition preserves {X A} (obs : world -> X) (m : handler A) : Prop :=
  forall w, obs (m w).2 = obs w.

(** Who owns which row of [health_suggestions]. *)
Definition owners (w : world) : list (Z * option string) :=
  map (fun r => (id r, user_id r)) (health_suggestions w).

(** ** The words of the specification, for comparison with the code *)

(** A string that is empty or consists of whitespace only. *)
Fixpoint whitespace_only (s : string) : bool :=
  match s with
  | EmptyString => true
  | String c s' => isspace c && whitespace_only s'
  end.

(** [k] is a prefix of [s], letters of the ASCII range compared without
    regard to case. *)
Fixpoint prefix_nocase (k s : list ascii) : bool :=
  match k, s with
  | nil, _ => true
  | _ :: _, nil => false
  | c :: k', d :: s' => char_eq_nocase c d && prefix_nocase k' s'
  end.

(** [k] occurs in [s] as a substring, in the same sense. *)
Fixpoint occurs_nocase (k s : list ascii) : bool :=
  prefix_nocase k s
  || match s with
     | nil => false
     | _ :: s' => occurs_nocase k s'
     end.

(** What LIKE sees of a text: the part before its first NUL. *)
Definition seen (value : string) : list ascii :=
  until_nul (list_ascii_of_string value).

Definition occurs_in (keyword value : string) : bool :=
  occurs_nocase (list_ascii_of_string keyword) (seen value).

(** The keyword occurs in the title, the content, the author or the tag. *)
Definition keyword_occurs (keyword : string) (r : HealthSuggestion) : bool :=
  occurs_in keyword (title r) || occurs_in keyword (content r)
  || occurs_in keyword (author r)
  || match tag r with
     | None => false
     | Some t => occurs_in keyword t
     end.


(** Keywords without the two characters LIKE reads as wildcards. *)
Definition plain_char (c : ascii) : bool :=
  negb (Ascii.eqb c "%"%char) && negb (Ascii.eqb c "_"%char).

Definition plain_keyword (keyword : string) : bool :=
  forallb plain_char (list_ascii_of_string keyword).

(** Keywords without a NUL character. *)
Definition nul_free (keyword : string) : bool :=
  forallb (fun c => negb (Ascii.eqb c zero)) (list_ascii_of_string keyword).




(** Newest first: ids do not increase along the list. *)
Definition newest_first (l : list HealthSuggestion) : Prop :=
  StronglySorted (fun a b => id b <= id a) l.

(** ** Concrete data for the examples, continued *)

Definition example_request : Request :=
  {| x_session_id := Some "s1"; client_host := Some "10.0.0.7" |}.

(** A suggestion owned by somebody else than the user of session [s1]. *)
Definition foreign_row : HealthSuggestion :=
  {| id := 1; title := "Sleep"; content := "Eight hours"; author := "Bo";
     tag := Some "rest"; image_url := None;
     publish_time := "2025-01-01 10:00:00"; user_id := Some "u2";
     user_ip := Some "10.0.0.9" |}.

Definition second_row : HealthSuggestion :=
  {| id := 2; title := "abc"; content := "def"; author := "gh";
     tag := None; image_url := None;
     publish_time := "2025-01-02 10:00:00"; user_id := Some "u1";
     user_ip := Some "10.0.0.7" |}.

Definition world_with_rows : world :=
  with_table (foreign_row :: second_row :: nil) 2 world_bound.

(** ** The two read-only endpoints of the suggestions *)

(** [get_health_suggestions] *)
Definition get_health_suggestions : handler (list HealthSuggestion) :=
  w ← get_world;
  ret (order_by_id_desc (health_suggestions w)).

(** [get_health_suggestion] *)
Definition get_health_suggestion (suggestion_id : Z)
  : handler HealthSuggestion :=
  w ← get_world;
  match select_by_id (health_suggestions w) suggestion_id with
  | None => raise (HTTPException 404)
  | Some row => ret row
  end.

(** ** Further records and predicates of the statements *)

(** The session [generate_qr_code] stores. *)
Definition fresh_session (now0 now1 : Z) : session :=
  {| created_at := now1; expires_at := now0 + timedelta_minutes 5;
     is_bound := false; user_info := None; is_confirmed := None;
     confirmed_at := None |}.

(** The identity [confirm_login_page] synthesizes from the login id. *)
Definition page_identity (loginId : string) : gmap string string :=
  <["user_id" := "user_" +:+ String.substring 0 8 loginId]>
  (<["user_name" := doctor_prefix +:+ String.substring 0 8 loginId]>
  (<["user_token" := "token_" +:+ loginId]> ∅)).

Definition page_session (loginId : string) (sess : session) : session :=
  {| created_at := created_at sess; expires_at := expires_at sess;
     is_bound := true; user_info := Some (page_identity loginId);
     is_confirmed := is_confirmed sess; confirmed_at := confirmed_at sess |}.

(** The session a call addresses, if any. *)
Definition call_session (c : call) : option string :=
  match c with
  | CallGenerate u _ _ _ => Some u
  | CallConfirmPage l _ => Some l
  | CallCheck u _ _ => Some u
  | CallBind r _ _ => Some (session_id r)
  | CallConfirm r _ _ _ => Some (uuid r)
  | CallStatus l _ _ => l
  | _ => None
  end.

Definition is_generate (c : call) : bool :=
  match c with
  | CallGenerate _ _ _ _ => true
  | _ => false
  end.

(** A bound session carries an identity, a confirmed session carries an
    identity and its confirmation time. *)
Definition session_wf (sess : session) : Prop :=
  (is_bound sess = true -> dict_truthy (user_info sess) = true)
  /\ (is_confirmed sess = Some true ->
      is_Some (confirmed_at sess) /\ is_Some (user_info sess)).

(** The ids of the table are pairwise different and none is above the
    counter of the AUTOINCREMENT column. *)
Definition table_ok (w : world) : Prop :=
  NoDup (map id (health_suggestions w))
  /\ Forall (fun r => id r <= sqlite_sequence w) (health_suggestions w).

(** The row [create_health_suggestion] inserts. *)
Definition created_row (strftime : Z -> string -> string) (w : world)
  (request : Request) (uid title content author : string)
  (tag url : option string) (now_publish : Z) : HealthSuggestion :=
  {| id := next_id (health_suggestions w) (sqlite_sequence w);
     title := strip title; content := strip content; author := strip author;
     tag := strip_tag tag; image_url := url;
     publish_time := strftime now_publish "%Y-%m-%d %H:%M:%S";
     user_id := Some uid; user_ip := Some (client_ip request) |}.

(** The name under which an image of a new suggestion is stored. *)
Definition created_image_name (strftime : Z -> string -> string)
  (splitext_ext : string -> string) (img : UploadFile) (now_file : Z)
  : string :=
  "health_suggestion_" +:+ strftime now_file "%Y%m%d_%H%M%S"
    +:+ file_extension splitext_ext img.

(** The name under which an image of an updated suggestion is stored. *)
Definition updated_image_name (strftime : Z -> string -> string)
  (splitext_ext : string -> string) (suggestion_id : Z) (img : UploadFile)
  (now_file : Z) : string :=
  "health_suggestion_" +:+ strftime now_file "%Y%m%d_%H%M%S" +:+ "_"
    +:+ pretty suggestion_id +:+ file_extension splitext_ext img.




(** The world after the best-effort removal of the image of a row:
    [if image_url: if path.exists(): try: os.remove(path) except: pass]. *)
Definition released (old : option string) (remove_ok : bool) (w : world)
  : world :=
  match old with
  | None => w
  | Some o =>
      if str_truthy o && bool_decide (lstrip_slash o ∈ files w) && remove_ok
      then with_files (files w ∖ {[ lstrip_slash o ]}) w
      else w
  end.

(** A handler whose final world is related by [R] to the world it starts
    in, whether it returns or raises. *)
Definition steps_by {A} (R : world -> world -> Prop) (m : handler A) : Prop :=
  forall w, R w (m w).2.

(** The counter of the ids does not go down and the table stays in order. *)
Definition table_step (w w' : world) : Prop :=
  sqlite_sequence w <= sqlite_sequence w' /\ (table_ok w -> table_ok w').

(** At least one of the four searched fields holds a text that LIKE does
    not see as empty: it has a first character, and that is not NUL. *)
Definition visible (value : string) : bool :=
  match seen value with
  | nil => false
  | _ :: _ => true
  end.

Definition has_text (r : HealthSuggestion) : bool :=
  visible (title r) || visible (content r) || visible (author r)
  || match tag r with
     | None => false
     | Some t => visible t
     end.

(** The world after a sequence of calls. *)
Definition after_all (isoformat : Z -> string)
  (strftime : Z -> string -> string) (splitext_ext : string -> string)
  (cs : list call) (w : world) : world :=
  fold_left (fun w' c => after isoformat strftime splitext_ext c w') cs w.

(** ** Concrete data for the examples, third part *)

(** The session of [world_generated] after a confirm at time 1. *)
Definition world_confirmed : world :=
  (confirm_qr_login example_isoformat {| uuid := "s1"; doctor_id := "d1" |}
     1 2 3 world_generated).2.

(** The session of [world_generated] after the confirmation page was
    opened at time 1. *)
Definition world_paged : world :=
  (confirm_login_page "s1" 1 world_generated).2.

Definition example_image : UploadFile :=
  {| content_type := Some "image/png"; size := Some 1000;
     filename := Some "leaf.png" |}.

(** The table of [world_with_rows] with the id counter at the largest row
    id. *)
Definition world_at_last_id : world :=
  with_table (foreign_row :: second_row :: nil) max_rowid world_bound.

(** A row of the user of session [s1] with an image that is on disk. *)
Definition row_with_image : HealthSuggestion :=
  {| id := 3; title := "Tea"; content := "Green"; author := "Ann";
     tag := None; image_url := Some "/uploads/old.png";
     publish_time := "2025-01-03 10:00:00"; user_id := Some "u1";
     user_ip := Some "10.0.0.7" |}.

Definition world_with_image : world :=
  with_files {[ "uploads/old.png" ]}
    (with_table (foreign_row :: second_row :: row_with_image :: nil) 3
       world_bound).

(** ** Running handlers *)

Ltac run_handler :=
  unfold mbind, handler_bind, bind, mret, handler_ret, ret, raise,
    get_world, when_raise, try_except, set_qr_sessions, set_user_sessions,
    set_files, set_table; cbn beta iota.

(** * Properties *)

Lemma with_qr_sessions_same (w : world) :
  with_qr_sessions (qr_sessions w) w = w.
Proof. by destruct w. Qed.

Lemma str_truthy_nonempty (s : string) : s ≠ "" -> str_truthy s = true.
Proof. by destruct s. Qed.

(** The resolver returns [None] or a dictionary that counts as true. *)
Lemma get_user_from_session_truthy w sid info :
  get_user_from_session w sid = Some info -> dict_truthy (Some info) = true.
Proof.
  unfold get_user_from_session.
  destruct (qr_sessions w !! sid) as [sess|]; [|done].
  destruct (is_bound sess); [|done]. cbn [negb orb].
  destruct (dict_truthy (user_info sess)) eqn:Ht; [|done]. cbn [negb].
  by intros <-.
Qed.

Lemma get_user_from_request_truthy w request info :
  get_user_from_request w request = Some info ->
  dict_truthy (Some info) = true.
Proof.
  unfold get_user_from_request.
  destruct (x_session_id request) as [sid|]; [|done].
  destruct (str_truthy sid); [|done]. apply get_user_from_session_truthy.
Qed.

(** ** The four session operations, case by case *)

Section SessionFacts.

Variable isoformat : Z -> string.

Lemma check_not_found w sid n0 n1 :
  qr_sessions w !! sid = None ->
  check_qr_login isoformat sid n0 n1 w = (Raise (HTTPException 404), w).
Proof. intros H. unfold check_qr_login. run_handler. by rewrite H. Qed.

Lemma check_expired w sid sess n0 n1 :
  qr_sessions w !! sid = Some sess -> n0 > expires_at sess ->
  check_qr_login isoformat sid n0 n1 w
  = (Raise (HTTPException 410), with_qr_sessions (delete sid (qr_sessions w)) w).
Proof.
  intros H Hexp. unfold check_qr_login. run_handler. rewrite H.
  by rewrite bool_decide_eq_true_2.
Qed.

Lemma check_live w sid sess n0 n1 :
  qr_sessions w !! sid = Some sess -> n0 <= expires_at sess ->
  check_qr_login isoformat sid n0 n1 w
  = (if default false (is_confirmed sess) then
       match user_info sess with
       | None => Raise (AttributeError "get")
       | Some info =>
           Return (CheckSuccess sid (default "" (info !! "doctor_id"))
                     (isoformat (default n1 (confirmed_at sess))))
       end
     else Return (CheckWaiting sid), w).
Proof.
  intros H Hexp. unfold check_qr_login. run_handler. rewrite H.
  rewrite bool_decide_eq_false_2 by lia.
  destruct (default false (is_confirmed sess)); [|done].
  by destruct (user_info sess).
Qed.

Lemma status_not_found w sid n0 n1 :
  sid ≠ "" -> qr_sessions w !! sid = None ->
  get_qr_login_status isoformat (Some sid) n0 n1 w
  = (Raise (HTTPException 404), w).
Proof.
  intros Hne H. unfold get_qr_login_status.
  rewrite (str_truthy_nonempty _ Hne). cbn [negb]. run_handler. by rewrite H.
Qed.

Lemma status_expired w sid sess n0 n1 :
  sid ≠ "" -> qr_sessions w !! sid = Some sess -> n0 > expires_at sess ->
  get_qr_login_status isoformat (Some sid) n0 n1 w
  = (Raise (HTTPException 410), with_qr_sessions (delete sid (qr_sessions w)) w).
Proof.
  intros Hne H Hexp. unfold get_qr_login_status.
  rewrite (str_truthy_nonempty _ Hne). cbn [negb]. run_handler. rewrite H.
  by rewrite bool_decide_eq_true_2.
Qed.

Lemma status_live w sid sess n0 n1 :
  sid ≠ "" -> qr_sessions w !! sid = Some sess -> n0 <= expires_at sess ->
  get_qr_login_status isoformat (Some sid) n0 n1 w
  = (if default false (is_confirmed sess)
     then Return (StatusConfirmed sid
                    (isoformat (default n1 (confirmed_at sess))))
     else Return (StatusWaiting sid), w).
Proof.
  intros Hne H Hexp. unfold get_qr_login_status.
  rewrite (str_truthy_nonempty _ Hne). cbn [negb]. run_handler. rewrite H.
  rewrite bool_decide_eq_false_2 by lia.
  by destruct (default false (is_confirmed sess)).
Qed.

Lemma bind_not_found w req n0 n1 :
  qr_sessions w !! session_id req = None ->
  bind_qr_login isoformat req n0 n1 w = (Raise (HTTPException 404), w).
Proof. intros H. unfold bind_qr_login. run_handler. by rewrite H. Qed.

Lemma bind_expired w req sess n0 n1 :
  qr_sessions w !! session_id req = Some sess -> n0 > expires_at sess ->
  bind_qr_login isoformat req n0 n1 w
  = (Raise (HTTPException 410),
     with_qr_sessions (delete (session_id req) (qr_sessions w)) w).
Proof.
  intros H Hexp. unfold bind_qr_login. run_handler. rewrite H.
  by rewrite bool_decide_eq_true_2.
Qed.

Lemma bind_already_bound w req sess n0 n1 :
  qr_sessions w !! session_id req = Some sess -> n0 <= expires_at sess ->
  is_bound sess = true ->
  bind_qr_login isoformat req n0 n1 w = (Raise (HTTPException 400), w).
Proof.
  intros H Hexp Hb. unfold bind_qr_login. run_handler. rewrite H.
  rewrite bool_decide_eq_false_2 by lia. by rewrite Hb.
Qed.

Lemma bind_fresh w req sess n0 n1 :
  qr_sessions w !! session_id req = Some sess -> n0 <= expires_at sess ->
  is_bound sess = false ->
  bind_qr_login isoformat req n0 n1 w
  = (Return BindSuccess,
     with_user_sessions
       (<[session_id req := bound_row isoformat req sess n1]> (user_sessions w))
       (with_qr_sessions
          (<[session_id req := bound_session req sess]> (qr_sessions w)) w)).
Proof.
  intros H Hexp Hb. unfold bind_qr_login. run_handler. rewrite H.
  rewrite bool_decide_eq_false_2 by lia. by rewrite Hb.
Qed.

Lemma confirm_not_found w req n0 n1 n2 :
  qr_sessions w !! uuid req = None ->
  confirm_qr_login isoformat req n0 n1 n2 w = (Raise (HTTPException 404), w).
Proof. intros H. unfold confirm_qr_login. run_handler. by rewrite H. Qed.

Lemma confirm_expired w req sess n0 n1 n2 :
  qr_sessions w !! uuid req = Some sess -> n0 > expires_at sess ->
  confirm_qr_login isoformat req n0 n1 n2 w
  = (Raise (HTTPException 410),
     with_qr_sessions (delete (uuid req) (qr_sessions w)) w).
Proof.
  intros H Hexp. unfold confirm_qr_login. run_handler. rewrite H.
  by rewrite bool_decide_eq_true_2.
Qed.

Lemma confirm_live w req sess n0 n1 n2 :
  qr_sessions w !! uuid req = Some sess -> n0 <= expires_at sess ->
  confirm_qr_login isoformat req n0 n1 n2 w
  = (Return (ConfirmSuccess (uuid req) (doctor_id req)),
     with_qr_sessions
       (<[uuid req := confirmed_session isoformat req sess n1 n2]> (qr_sessions w)) w).
Proof.
  intros H Hexp. unfold confirm_qr_login. run_handler. rewrite H.
  by rewrite bool_decide_eq_false_2 by lia.
Qed.

End SessionFacts.

(** ** Polling *)

Section Polling.

Variable isoformat : Z -> string.

Lemma check_many_live w sid sess polls :
  qr_sessions w !! sid = Some sess ->
  Forall (fun p => p.1 <= expires_at sess) polls ->
  check_many isoformat sid polls w
  = (map (fun p => (check_qr_login isoformat sid p.1 p.2 w).1) polls, w).
Proof.
  intros H Hall. induction Hall as [|[n0 n1] rest Hle _ IH]; [done|].
  cbn [check_many map fst snd] in *.
  rewrite (check_live _ _ _ _ _ _ H Hle), IH. reflexivity.
Qed.

Lemma status_many_live w sid sess polls :
  sid ≠ "" -> qr_sessions w !! sid = Some sess ->
  Forall (fun p => p.1 <= expires_at sess) polls ->
  status_many isoformat sid polls w
  = (map (fun p => (get_qr_login_status isoformat (Some sid) p.1 p.2 w).1)
       polls, w).
Proof.
  intros Hne H Hall. induction Hall as [|[n0 n1] rest Hle _ IH]; [done|].
  cbn [status_many map fst snd] in *.
  rewrite (status_live _ _ _ _ _ _ Hne H Hle), IH. reflexivity.
Qed.

Lemma check_many_waiting w sid sess polls :
  qr_sessions w !! sid = Some sess ->
  default false (is_confirmed sess) = false ->
  Forall (fun p => p.1 <= expires_at sess) polls ->
  check_many isoformat sid polls w
  = (map (fun _ => Return (CheckWaiting sid)) polls, w).
Proof.
  intros H Hc Hall. rewrite (check_many_live _ _ _ _ H Hall). f_equal.
  apply map_ext_Forall. eapply Forall_impl; [exact Hall|].
  intros [n0 n1] Hle. cbn [fst snd] in *.
  by rewrite (check_live _ _ _ _ _ _ H Hle), Hc.
Qed.

Lemma status_many_waiting w sid sess polls :
  sid ≠ "" -> qr_sessions w !! sid = Some sess ->
  default false (is_confirmed sess) = false ->
  Forall (fun p => p.1 <= expires_at sess) polls ->
  status_many isoformat sid polls w
  = (map (fun _ => Return (StatusWaiting sid)) polls, w).
Proof.
  intros Hne H Hc Hall. rewrite (status_many_live _ _ _ _ Hne H Hall). f_equal.
  apply map_ext_Forall. eapply Forall_impl; [exact Hall|].
  intros [n0 n1] Hle. cbn [fst snd] in *.
  by rewrite (status_live _ _ _ _ _ _ Hne H Hle), Hc.
Qed.

Lemma check_many_confirmed w sid sess info t polls :
  qr_sessions w !! sid = Some sess ->
  is_confirmed sess = Some true -> user_info sess = Some info ->
  confirmed_at sess = Some t ->
  Forall (fun p => p.1 <= expires_at sess) polls ->
  check_many isoformat sid polls w
  = (map (fun _ => Return (CheckSuccess sid (default "" (info !! "doctor_id"))
                             (isoformat t))) polls, w).
Proof.
  intros H Hc Hi Ht Hall. rewrite (check_many_live _ _ _ _ H Hall). f_equal.
  apply map_ext_Forall. eapply Forall_impl; [exact Hall|].
  intros [n0 n1] Hle. cbn [fst snd] in *.
  by rewrite (check_live _ _ _ _ _ _ H Hle), Hc, Hi, Ht.
Qed.

Lemma status_many_confirmed w sid sess t polls :
  sid ≠ "" -> qr_sessions w !! sid = Some sess ->
  is_confirmed sess = Some true -> confirmed_at sess = Some t ->
  Forall (fun p => p.1 <= expires_at sess) polls ->
  status_many isoformat sid polls w
  = (map (fun _ => Return (StatusConfirmed sid (isoformat t))) polls, w).
Proof.
  intros Hne H Hc Ht Hall. rewrite (status_many_live _ _ _ _ Hne H Hall).
  f_equal. apply map_ext_Forall. eapply Forall_impl; [exact Hall|].
  intros [n0 n1] Hle. cbn [fst snd] in *.
  by rewrite (status_live _ _ _ _ _ _ Hne H Hle), Hc, Ht.
Qed.

End Polling.

(** ** Claims on the session state machine *)

(** C1, evaluated on a session that was bound and whose deadline has
    passed.  The session of [world_bound] expires at 300000000; a poll at
    300000001 answers 410, yet [get_user_from_session] and
    [get_user_from_request] never look at [expires_at] and still return the
    identity of the bind instead of [None]. *)
Lemma resolver_returns_identity_of_expired_session :
  exists sess,
    qr_sessions world_bound !! "s1" = Some sess
    /\ expires_at sess = 300000000
    /\ is_bound sess = true
    /\ (check_qr_login example_isoformat "s1" 300000001 300000001
          world_bound).1 = Raise (HTTPException 410)
    /\ get_user_from_session world_bound "s1"
       = Some (bound_identity example_bind_request)
    /\ get_user_from_request world_bound
         {| x_session_id := Some "s1"; client_host := None |}
       = Some (bound_identity example_bind_request).
Proof.
  eexists. split; [vm_compute; reflexivity|].
  repeat split; vm_compute; reflexivity.
Qed.

(** What the resolver does in general: the answer depends on the presence
    of the session, on [is_bound] and on [user_info] only. *)
Lemma get_user_from_session_spec (w : world) (sid : string) :
  get_user_from_session w sid
  = match qr_sessions w !! sid with
    | None => None
    | Some sess =>
        if is_bound sess && dict_truthy (user_info sess)
        then user_info sess else None
    end.
Proof.
  unfold get_user_from_session. destruct (qr_sessions w !! sid) as [sess|]; [|done].
  by destruct (is_bound sess), (dict_truthy (user_info sess)).
Qed.

(** C2, evaluated on two sessions that are bound and not expired.  The
    session of [world_bound] was bound through [bind_qr_login]; the session
    of [world_paged] went through [confirm_login_page], the page the QR code
    opens and whose source comment says it marks the session as confirmed.
    Both have [is_bound] set and an identity attached, which the resolver
    returns, yet both polling endpoints read [is_confirmed] only and still
    answer waiting. *)
Lemma bound_session_polls_waiting :
  (exists sess,
     qr_sessions world_bound !! "s1" = Some sess
     /\ is_bound sess = true
     /\ 5 <= expires_at sess
     /\ get_user_from_session world_bound "s1"
        = Some (bound_identity example_bind_request)
     /\ check_qr_login example_isoformat "s1" 5 5 world_bound
        = (Return (CheckWaiting "s1"), world_bound)
     /\ get_qr_login_status example_isoformat (Some "s1") 5 5 world_bound
        = (Return (StatusWaiting "s1"), world_bound))
  /\ (exists sess,
        (confirm_login_page "s1" 1 world_generated).1
        = Return (PageHtml "s1")
        /\ qr_sessions world_paged !! "s1" = Some sess
        /\ is_bound sess = true
        /\ 5 <= expires_at sess
        /\ get_user_from_session world_paged "s1" = Some (page_identity "s1")
        /\ check_qr_login example_isoformat "s1" 5 5 world_paged
           = (Return (CheckWaiting "s1"), world_paged)
        /\ get_qr_login_status example_isoformat (Some "s1") 5 5 world_paged
           = (Return (StatusWaiting "s1"), world_paged)).
Proof.
  split.
  - eexists. split; [vm_compute; reflexivity|].
    repeat split; vm_compute; try reflexivity. discriminate.
  - eexists. split; [vm_compute; reflexivity|].
    split; [vm_compute; reflexivity|].
    repeat split; vm_compute; try reflexivity. discriminate.
Qed.

(** What the polls do in general.  For a session [sid] that is in the
    store, and polls that all come no later than its deadline:
    - while the confirmed flag is not set, every poll of either endpoint
      answers waiting and leaves the world alone;
    - this stays so after a bind, although the bind sets the bound flag;
    - after a confirm with doctor id [d], every poll of [check_qr_login]
      answers success with [d] and the confirmation time, every poll of
      [get_qr_login_status] answers confirmed with the confirmation time,
      and the world is left alone, so the answer repeats until expiry. *)
Theorem poll_follows_confirmed_flag (isoformat : Z -> string) (w : world)
  (sid : string) (sess : session) (polls : list (Z * Z)) :
  qr_sessions w !! sid = Some sess ->
  sid ≠ "" ->
  Forall (fun p => p.1 <= expires_at sess) polls ->
  (default false (is_confirmed sess) = false ->
     check_many isoformat sid polls w
     = (map (fun _ => Return (CheckWaiting sid)) polls, w)
     /\ status_many isoformat sid polls w
        = (map (fun _ => Return (StatusWaiting sid)) polls, w))
  /\ (forall u nm tk n0 n1,
        default false (is_confirmed sess) = false ->
        is_bound sess = false -> n0 <= expires_at sess ->
        let req := {| session_id := sid; req_user_id := u;
                      req_user_name := nm; req_user_token := tk |} in
        let w1 := (bind_qr_login isoformat req n0 n1 w).2 in
        (bind_qr_login isoformat req n0 n1 w).1 = Return BindSuccess
        /\ is_bound <$> qr_sessions w1 !! sid = Some true
        /\ check_many isoformat sid polls w1
           = (map (fun _ => Return (CheckWaiting sid)) polls, w1)
        /\ status_many isoformat sid polls w1
           = (map (fun _ => Return (StatusWaiting sid)) polls, w1))
  /\ (forall d n0 n1 n2,
        n0 <= expires_at sess ->
        let req := {| uuid := sid; doctor_id := d |} in
        let w1 := (confirm_qr_login isoformat req n0 n1 n2 w).2 in
        (confirm_qr_login isoformat req n0 n1 n2 w).1
        = Return (ConfirmSuccess sid d)
        /\ check_many isoformat sid polls w1
           = (map (fun _ => Return (CheckSuccess sid d (isoformat n1))) polls,
              w1)
        /\ status_many isoformat sid polls w1
           = (map (fun _ => Return (StatusConfirmed sid (isoformat n1))) polls,
              w1)).
Proof.
  intros H Hne Hall. split; [|split].
  - intros Hc. split.
    + by apply (check_many_waiting _ _ _ sess).
    + by apply (status_many_waiting _ _ _ sess).
  - intros u nm tk n0 n1 Hc Hb Hle req w1. subst w1.
    rewrite (bind_fresh isoformat w req sess n0 n1 H Hle Hb).
    cbn [fst snd].
    assert (Hl : qr_sessions
                   (with_user_sessions
                      (<[session_id req := bound_row isoformat req sess n1]>
                         (user_sessions w))
                      (with_qr_sessions
                         (<[session_id req := bound_session req sess]>
                            (qr_sessions w)) w)) !! sid
                 = Some (bound_session req sess)).
    { cbn. apply lookup_insert_eq. }
    split; [done|]. split; [by rewrite Hl|]. split.
    + by apply (check_many_waiting _ _ _ (bound_session req sess)).
    + by apply (status_many_waiting _ _ _ (bound_session req sess)).
  - intros d n0 n1 n2 Hle req w1. subst w1.
    rewrite (confirm_live isoformat w req sess n0 n1 n2 H Hle).
    cbn [fst snd].
    assert (Hl : qr_sessions
                   (with_qr_sessions
                      (<[uuid req := confirmed_session isoformat req sess n1 n2]>
                         (qr_sessions w)) w) !! sid
                 = Some (confirmed_session isoformat req sess n1 n2)).
    { cbn. apply lookup_insert_eq. }
    split; [done|]. split.
    + rewrite (check_many_confirmed isoformat _ sid
                 (confirmed_session isoformat req sess n1 n2)
                 (confirmed_identity isoformat req n2) n1 polls Hl);
        [|done..].
      unfold confirmed_identity. by rewrite lookup_insert_eq.
    + by apply (status_many_confirmed _ _ _
                  (confirmed_session isoformat req sess n1 n2)).
Qed.

Lemma poll_follows_confirmed_flag_witness :
  (check_many example_isoformat "s1" ((5, 5) :: (7, 8) :: nil) world_generated
   = (Return (CheckWaiting "s1") :: Return (CheckWaiting "s1") :: nil,
      world_generated))
  /\ (check_many example_isoformat "s1" ((5, 5) :: (7, 8) :: nil)
        (confirm_qr_login example_isoformat
           {| uuid := "s1"; doctor_id := "d7" |} 2 3 4 world_generated).2).1
     = Return (CheckSuccess "s1" "d7" (example_isoformat 3))
         :: Return (CheckSuccess "s1" "d7" (example_isoformat 3)) :: nil.
Proof.
  pose proof (poll_follows_confirmed_flag example_isoformat world_generated
                "s1"
                {| created_at := 0; expires_at := 300000000; is_bound := false;
                   user_info := None; is_confirmed := None;
                   confirmed_at := None |}
                ((5, 5) :: (7, 8) :: nil)) as P.
  destruct P as (Pw & _ & Pc).
  - vm_compute; reflexivity.
  - discriminate.
  - repeat constructor; cbn; lia.
  - split.
    + apply Pw. reflexivity.
    + destruct (Pc "d7" 2 3 4) as (_ & Hc & _); [cbn; lia|].
      cbn zeta in Hc. rewrite Hc. reflexivity.
Defined.




(** C5 as stated fails: the session of [world_confirmed] has not expired
    and [bind_qr_login] was never called on it (the table [user_sessions]
    is empty), but the confirm that came before has set [is_bound].  The
    first bind raises 400 and attaches nothing.  The same happens to the
    session of [world_paged], bound by the confirmation page. *)
Lemma first_bind_fails_on_bound_session :
  (exists sess,
     qr_sessions world_confirmed !! "s1" = Some sess
     /\ 5 <= expires_at sess
     /\ user_sessions world_confirmed = ∅
     /\ bind_qr_login example_isoformat example_bind_request 5 5
          world_confirmed
        = (Raise (HTTPException 400), world_confirmed))
  /\ (exists sess,
        qr_sessions world_paged !! "s1" = Some sess
        /\ 5 <= expires_at sess
        /\ user_sessions world_paged = ∅
        /\ bind_qr_login example_isoformat example_bind_request 5 5
             world_paged
           = (Raise (HTTPException 400), world_paged)).
Proof.
  split.
  - eexists. split; [vm_compute; reflexivity|].
    repeat split; vm_compute; try reflexivity. discriminate.
  - eexists. split; [vm_compute; reflexivity|].
    repeat split; vm_compute; try reflexivity. discriminate.
Qed.

(** C5 (amended: the session is not yet bound when the first bind comes).
    On a session that is in the store, not yet bound, and not expired
    at either call: the first bind returns success and leaves the session
    bound with the identity of the first request; the second bind raises
    400 and changes nothing, so that identity stays attached. *)
Theorem bind_twice (isoformat : Z -> string) (w : world)
  (req1 req2 : QRLoginRequest) (sess : session) (a0 a1 b0 b1 : Z) :
  session_id req2 = session_id req1 ->
  qr_sessions w !! session_id req1 = Some sess ->
  is_bound sess = false ->
  a0 <= expires_at sess ->
  b0 <= expires_at sess ->
  exists w1 : world,
    bind_qr_login isoformat req1 a0 a1 w = (Return BindSuccess, w1)
    /\ qr_sessions w1 !! session_id req1 = Some (bound_session req1 sess)
    /\ bind_qr_login isoformat req2 b0 b1 w1 = (Raise (HTTPException 400), w1)
    /\ (user_info <$> qr_sessions (bind_qr_login isoformat req2 b0 b1 w1).2
                        !! session_id req1)
       = Some (Some (bound_identity req1)).
Proof.
  intros Hsame H Hb Ha Hb0. eexists. split.
  { by apply bind_fresh. }
  set (w1 := with_user_sessions _ _).
  assert (Hl : qr_sessions w1 !! session_id req1
               = Some (bound_session req1 sess)).
  { subst w1. cbn. apply lookup_insert_eq. }
  assert (H2 : bind_qr_login isoformat req2 b0 b1 w1
               = (Raise (HTTPException 400), w1)).
  { apply (bind_already_bound isoformat w1 req2 (bound_session req1 sess));
      [by rewrite Hsame|done|done]. }
  split; [exact Hl|]. split; [exact H2|].
  rewrite H2. cbn [snd]. by rewrite Hl.
Qed.

Lemma bind_twice_witness :
  exists w1 : world,
    bind_qr_login example_isoformat example_bind_request 1 1 world_generated
    = (Return BindSuccess, w1)
    /\ bind_qr_login example_isoformat
         {| session_id := "s1"; req_user_id := "u2"; req_user_name := "Bob";
            req_user_token := "tok2" |} 2 2 w1
       = (Raise (HTTPException 400), w1).
Proof.
  destruct (bind_twice example_isoformat world_generated example_bind_request
              {| session_id := "s1"; req_user_id := "u2";
                 req_user_name := "Bob"; req_user_token := "tok2" |}
              {| created_at := 0; expires_at := 300000000; is_bound := false;
                 user_info := None; is_confirmed := None;
                 confirmed_at := None |} 1 1 2 2)
    as (w1 & H1 & _ & H2 & _).
  - reflexivity.
  - vm_compute; reflexivity.
  - reflexivity.
  - cbn; lia.
  - cbn; lia.
  - exists w1. split; [exact H1|exact H2].
Defined.

(** C8.  On a session that is in the store and not expired at either call,
    two confirms both return success, each writes its own doctor id, login
    time and confirmation time into the session, and after the second call
    the session holds the values of the second call; with two different
    doctor ids the session after the second call differs from the session
    after the first. *)
Theorem confirm_overwrites (isoformat : Z -> string) (w : world)
  (req1 req2 : QRConfirmRequest) (sess : session) (a0 a1 a2 b0 b1 b2 : Z) :
  uuid req2 = uuid req1 ->
  qr_sessions w !! uuid req1 = Some sess ->
  a0 <= expires_at sess ->
  b0 <= expires_at sess ->
  exists w1 w2 : world,
    confirm_qr_login isoformat req1 a0 a1 a2 w
    = (Return (ConfirmSuccess (uuid req1) (doctor_id req1)), w1)
    /\ qr_sessions w1 !! uuid req1
       = Some (confirmed_session isoformat req1 sess a1 a2)
    /\ confirm_qr_login isoformat req2 b0 b1 b2 w1
       = (Return (ConfirmSuccess (uuid req1) (doctor_id req2)), w2)
    /\ qr_sessions w2 !! uuid req1
       = Some (confirmed_session isoformat req2 sess b1 b2)
    /\ (doctor_id req1 ≠ doctor_id req2 ->
        qr_sessions w2 !! uuid req1 ≠ qr_sessions w1 !! uuid req1).
Proof.
  intros Hsame H Ha Hb.
  set (s1 := confirmed_session isoformat req1 sess a1 a2).
  set (w1 := with_qr_sessions (<[uuid req1 := s1]> (qr_sessions w)) w).
  set (s2 := confirmed_session isoformat req2 sess b1 b2).
  set (w2 := with_qr_sessions (<[uuid req1 := s2]> (qr_sessions w1)) w1).
  assert (Hl1 : qr_sessions w1 !! uuid req1 = Some s1).
  { subst w1. cbn. apply lookup_insert_eq. }
  assert (Hl2 : qr_sessions w2 !! uuid req1 = Some s2).
  { subst w2. cbn. apply lookup_insert_eq. }
  exists w1, w2. split; [by apply confirm_live|]. split; [exact Hl1|].
  split.
  { rewrite <- Hsame in Hl1.
    rewrite (confirm_live isoformat w1 req2 s1 b0 b1 b2 Hl1 Hb).
    subst w2 s2. by rewrite Hsame. }
  split; [exact Hl2|].
  intros Hd. rewrite Hl1, Hl2. intros Heq.
  assert (Hs : s2 = s1) by congruence.
  apply (f_equal (fun s => default ∅ (user_info s) !! "doctor_id")) in Hs.
  change (confirmed_identity isoformat req2 b2 !! "doctor_id"
          = confirmed_identity isoformat req1 a2 !! "doctor_id") in Hs.
  unfold confirmed_identity in Hs. rewrite !lookup_insert_eq in Hs.
  congruence.
Qed.

Lemma confirm_overwrites_witness :
  exists w1 w2 : world,
    confirm_qr_login example_isoformat {| uuid := "s1"; doctor_id := "d1" |}
      1 2 3 world_generated
    = (Return (ConfirmSuccess "s1" "d1"), w1)
    /\ confirm_qr_login example_isoformat {| uuid := "s1"; doctor_id := "d2" |}
         4 5 6 w1
       = (Return (ConfirmSuccess "s1" "d2"), w2)
    /\ (confirmed_at <$> qr_sessions w2 !! "s1") = Some (Some 5).
Proof.
  destruct (confirm_overwrites example_isoformat world_generated
              {| uuid := "s1"; doctor_id := "d1" |}
              {| uuid := "s1"; doctor_id := "d2" |}
              {| created_at := 0; expires_at := 300000000; is_bound := false;
                 user_info := None; is_confirmed := None;
                 confirmed_at := None |} 1 2 3 4 5 6)
    as (w1 & w2 & H1 & _ & H2 & Hl & _).
  - reflexivity.
  - vm_compute; reflexivity.
  - cbn; lia.
  - cbn; lia.
  - exists w1, w2. split; [exact H1|]. split; [exact H2|].
    cbn [uuid] in Hl. rewrite Hl. reflexivity.
Defined.

(** ** Handlers that leave a part of the world alone *)

Section Frames.

Context {X : Type} (obs : world -> X).

Lemma preserves_ret {A} (a : A) : preserves obs (ret a).
Proof. done. Qed.

Lemma preserves_raise {A} (e : exn) : preserves obs (@raise A e).
Proof. done. Qed.

Lemma preserves_get_world : preserves obs get_world.
Proof. done. Qed.

Lemma preserves_bind {A B} (m : handler A) (k : A -> handler B) :
  preserves obs m -> (forall a, preserves obs (k a)) ->
  preserves obs (m ≫= k).
Proof.
  intros Hm Hk w. unfold mbind, handler_bind, bind.
  specialize (Hm w). destruct (m w) as [[a|e] w1]; cbn [snd] in *.
  - by rewrite Hk.
  - done.
Qed.

Lemma preserves_try_except {A} (m : handler A) (h : exn -> handler A) :
  preserves obs m -> (forall e, preserves obs (h e)) ->
  preserves obs (try_except m h).
Proof.
  intros Hm Hh w. unfold try_except.
  specialize (Hm w). destruct (m w) as [[a|e] w1]; cbn [snd] in *.
  - done.
  - by rewrite Hh.
Qed.

Lemma preserves_when_raise c e : preserves obs (when_raise c e).
Proof. by destruct c. Qed.

Lemma preserves_getitem d k : preserves obs (getitem d k).
Proof. unfold getitem. by destruct (d !! k). Qed.

Lemma preserves_subscript d k : preserves obs (subscript d k).
Proof. destruct d; [apply preserves_getitem|done]. Qed.

Lemma preserves_not_an_image image : preserves obs (not_an_image image).
Proof. unfold not_an_image. by destruct (content_type image). Qed.

Lemma preserves_reraise_http e : preserves obs (reraise_http e).
Proof. by destruct e. Qed.

(** Observations that do not read the files. *)
Hypothesis obs_files : forall fs w, obs (with_files fs w) = obs w.

Lemma preserves_set_files f : preserves obs (set_files f).
Proof. intros w. apply obs_files. Qed.

Lemma preserves_write_file path ok : preserves obs (write_file path ok).
Proof. destruct ok; [apply preserves_set_files|done|]. intros w. apply obs_files. Qed.

Lemma preserves_remove_if_exists path ok :
  preserves obs (remove_if_exists path ok).
Proof.
  intros w. unfold remove_if_exists. run_handler.
  destruct (bool_decide (path ∈ files w) && ok); [apply obs_files|done].
Qed.

End Frames.

Lemma sessions_set_table rows seq : preserves qr_sessions (set_table rows seq).
Proof. done. Qed.

Lemma owners_update_table k title content author tag url publish
  (r : HealthSuggestion) :
  preserves owners
    (w1 ← get_world;
     set_table
       (map (update_row k title content author tag url publish)
          (health_suggestions w1)) (sqlite_sequence w1) ;;
     ret r).
Proof.
  intros w. run_handler. unfold owners. cbn. rewrite map_map.
  apply map_ext. intros x. unfold update_row.
  by destruct (id x =? k).
Qed.

Create HintDb frames discriminated.

#[export] Hint Resolve preserves_ret preserves_raise preserves_get_world
  preserves_when_raise preserves_getitem preserves_subscript
  preserves_not_an_image
  preserves_reraise_http sessions_set_table owners_update_table : frames.

#[export] Hint Extern 1 (preserves _ (set_files _)) =>
  apply preserves_set_files; reflexivity : frames.
#[export] Hint Extern 1 (preserves _ (write_file _ _)) =>
  apply preserves_write_file; reflexivity : frames.
#[export] Hint Extern 1 (preserves _ (remove_if_exists _ _)) =>
  apply preserves_remove_if_exists; reflexivity : frames.

Ltac frame_step :=
  match goal with
  | |- preserves _ _ => solve [auto with frames]
  | |- preserves _ (_ ≫= _) => apply preserves_bind; [|intros ?]
  | |- preserves _ (try_except _ _) => apply preserves_try_except; [|intros ?]
  | |- preserves _ (match ?x with _ => _ end) => destruct x
  | |- preserves _ (let _ := _ in _) => cbn zeta
  end.

Section FrameOfSuggestions.

Variable strftime : Z -> string -> string.
Variable splitext_ext : string -> string.

Lemma create_keeps_sessions request title content author tag image nf np ok :
  preserves qr_sessions
    (create_health_suggestion strftime splitext_ext request title content
       author tag image nf np ok).
Proof. unfold create_health_suggestion. repeat frame_step. Qed.

Lemma update_keeps_sessions k request title content author tag image nf np
  rok wok :
  preserves qr_sessions
    (update_health_suggestion strftime splitext_ext k request title content
       author tag image nf np rok wok).
Proof. unfold update_health_suggestion. repeat frame_step. Qed.

Lemma delete_keeps_sessions k request rok :
  preserves qr_sessions (delete_health_suggestion k request rok).
Proof. unfold delete_health_suggestion. repeat frame_step. Qed.

Lemma search_keeps_sessions keyword :
  preserves qr_sessions (search_health_suggestions keyword).
Proof. unfold search_health_suggestions. repeat frame_step. Qed.

Lemma upload_keeps_sessions image n0 ok :
  preserves qr_sessions (upload_image strftime splitext_ext image n0 ok).
Proof. unfold upload_image. repeat frame_step. Qed.

(** Whatever its outcome, an update leaves every row with the id and the
    owner it had. *)
Lemma update_keeps_owners k request title content author tag image nf np
  rok wok :
  preserves owners
    (update_health_suggestion strftime splitext_ext k request title content
       author tag image nf np rok wok).
Proof. unfold update_health_suggestion. repeat frame_step. Qed.

End FrameOfSuggestions.

(** ** The invariant of the session store *)

Section Invariant.

Variable isoformat : Z -> string.
Variable strftime : Z -> string -> string.
Variable splitext_ext : string -> string.











End Invariant.



(** ** Claims on the suggestions *)

Section SuggestionClaims.

Variable strftime : Z -> string -> string.
Variable splitext_ext : string -> string.

Lemma update_forbidden w k request info uid row title content author tag
  image nf np rok wok :
  get_user_from_request w request = Some info ->
  info !! "user_id" = Some uid ->
  select_by_id (health_suggestions w) k = Some row ->
  user_id row ≠ Some uid ->
  update_health_suggestion strftime splitext_ext k request title content
    author tag image nf np rok wok w
  = (Raise (HTTPException 403), w).
Proof.
  intros Hu Hid Hrow Hne. unfold update_health_suggestion. run_handler.
  rewrite Hu, (get_user_from_request_truthy _ _ _ Hu), Hrow. cbn [negb].
  unfold subscript, getitem. rewrite Hid. run_handler.
  rewrite bool_decide_eq_false_2 by congruence. reflexivity.
Qed.

Lemma delete_forbidden w k request info uid row rok :
  get_user_from_request w request = Some info ->
  info !! "user_id" = Some uid ->
  select_by_id (health_suggestions w) k = Some row ->
  user_id row ≠ Some uid ->
  delete_health_suggestion k request rok w = (Raise (HTTPException 403), w).
Proof.
  intros Hu Hid Hrow Hne. unfold delete_health_suggestion. run_handler.
  rewrite Hu, (get_user_from_request_truthy _ _ _ Hu), Hrow. cbn [negb].
  unfold subscript, getitem. rewrite Hid. run_handler.
  rewrite bool_decide_eq_false_2 by congruence. reflexivity.
Qed.

End SuggestionClaims.

(** C4.  Whatever an update does, every row keeps the id and the owner it
    had ([owners] is the same before and after).  And when the caller is
    logged in with an identity whose [user_id] differs from the owner of
    the row with the requested id, update and delete both raise 403 and
    leave the world, hence the row, as it was. *)
Theorem owner_is_never_reassigned (strftime : Z -> string -> string)
  (splitext_ext : string -> string) (w : world) (k : Z) (request : Request)
  (title content author : string) (tag : option string)
  (image : option UploadFile) (nf np : Z) (rok : bool) (wok : write_result) :
  owners (update_health_suggestion strftime splitext_ext k request title
            content author tag image nf np rok wok w).2 = owners w
  /\ (forall info uid row,
        get_user_from_request w request = Some info ->
        info !! "user_id" = Some uid ->
        select_by_id (health_suggestions w) k = Some row ->
        user_id row ≠ Some uid ->
        update_health_suggestion strftime splitext_ext k request title
          content author tag image nf np rok wok w
        = (Raise (HTTPException 403), w)
        /\ delete_health_suggestion k request rok w
           = (Raise (HTTPException 403), w)).
Proof.
  split.
  - apply update_keeps_owners.
  - intros info uid row Hu Hid Hrow Hne. split.
    + by apply (update_forbidden _ _ _ _ _ info uid row).
    + by apply (delete_forbidden _ _ _ info uid row).
Qed.

Lemma owner_is_never_reassigned_witness :
  update_health_suggestion example_strftime example_splitext_ext 1
    example_request "New" "text" "Ann" None None 7 8 true Written
    world_with_rows
  = (Raise (HTTPException 403), world_with_rows)
  /\ delete_health_suggestion 1 example_request true world_with_rows
     = (Raise (HTTPException 403), world_with_rows).
Proof.
  destruct (owner_is_never_reassigned example_strftime example_splitext_ext
              world_with_rows 1 example_request "New" "text" "Ann" None None
              7 8 true Written) as (_ & H).
  apply (H (bound_identity example_bind_request) "u1" foreign_row).
  - vm_compute; reflexivity.
  - vm_compute; reflexivity.
  - reflexivity.
  - discriminate.
Defined.

(** ** Blank fields *)

Lemma lstrip_whitespace_only (s : string) :
  whitespace_only s = true -> lstrip s = "".
Proof.
  induction s as [|c s IH]; [done|]. cbn.
  intros [Hc Hs]%andb_true_iff. rewrite Hc. by apply IH.
Qed.

Lemma lstrip_empty_whitespace_only (s : string) :
  lstrip s = "" -> whitespace_only s = true.
Proof.
  induction s as [|c s IH]; [done|]. cbn.
  destruct (isspace c); [exact IH|discriminate].
Qed.

Lemma rstrip_empty_whitespace_only (s : string) :
  rstrip s = "" -> whitespace_only s = true.
Proof.
  induction s as [|c s IH]; [done|]. cbn.
  destruct (rstrip s) eqn:Hr.
  - destruct (isspace c); [intros _; by apply IH|discriminate].
  - discriminate.
Qed.

(** The test of the handler is the test of the specification. *)
Lemma blank_iff_whitespace_only (s : string) :
  blank s = true <-> whitespace_only s = true.
Proof.
  unfold blank, strip. split.
  - intros [Hs|Hs]%orb_true_iff.
    + by destruct s.
    + apply lstrip_empty_whitespace_only.
      destruct (rstrip (lstrip s)) eqn:Hr; [|done].
      apply rstrip_empty_whitespace_only in Hr.
      destruct (lstrip s) as [|c t] eqn:Hl; [done|].
      exfalso. assert (Hc : isspace c = false).
      { clear Hr. induction s as [|d s IH]; [done|]. cbn in Hl.
        destruct (isspace d) eqn:Hd; [by apply IH|]. congruence. }
      cbn in Hr. by rewrite Hc in Hr.
  - intros Hw. rewrite (lstrip_whitespace_only _ Hw). cbn.
    apply orb_true_r.
Qed.

(** C6.  When the caller is logged in and the title, the content or the
    author is empty or whitespace only, create raises 400 and leaves the
    world as it was: no row is inserted, no id is used up, no file is
    written. *)
Theorem create_rejects_blank_fields (strftime : Z -> string -> string)
  (splitext_ext : string -> string) (w : world) (request : Request)
  (info : gmap string string) (title content author : string)
  (tag : option string) (image : option UploadFile) (nf np : Z)
  (write_ok : write_result) :
  get_user_from_request w request = Some info ->
  whitespace_only title = true \/ whitespace_only content = true
  \/ whitespace_only author = true ->
  create_health_suggestion strftime splitext_ext request title content author
    tag image nf np write_ok w
  = (Raise (HTTPException 400), w).
Proof.
  intros Hu Hblank.
  rewrite <- !blank_iff_whitespace_only in Hblank.
  unfold create_health_suggestion. run_handler.
  rewrite Hu, (get_user_from_request_truthy _ _ _ Hu). cbn [negb].
  destruct (blank title); [reflexivity|].
  destruct (blank content); [reflexivity|].
  destruct (blank author); [reflexivity|].
  destruct Hblank as [H|[H|H]]; discriminate.
Qed.

Lemma create_rejects_blank_fields_witness :
  create_health_suggestion example_strftime example_splitext_ext
    example_request "Tea" "  " "Ann" None None 7 8 Written world_with_rows
  = (Raise (HTTPException 400), world_with_rows).
Proof.
  apply (create_rejects_blank_fields example_strftime example_splitext_ext
           world_with_rows example_request
           (bound_identity example_bind_request)).
  - vm_compute; reflexivity.
  - right; left. reflexivity.
Defined.

(** C7, evaluated on an upload that is not an image and on an image of
    11MB.  [upload_image] raises 400 and 413 inside its own
    [try ... except Exception], which turns both into 500. *)
Lemma upload_image_turns_rejections_into_500
  (strftime : Z -> string -> string) (splitext_ext : string -> string)
  (w : world) (now0 : Z) (write_ok : write_result) :
  upload_image strftime splitext_ext
    {| content_type := Some "text/plain"; size := Some 10;
       filename := Some "notes.txt" |} now0 write_ok w
  = (Raise (HTTPException 500), w)
  /\ upload_image strftime splitext_ext
       {| content_type := Some "image/png"; size := Some (11 * 1024 * 1024);
          filename := Some "big.png" |} now0 write_ok w
     = (Raise (HTTPException 500), w).
Proof. split; reflexivity. Qed.

(** The same two files sent to [create_health_suggestion], whose handler
    re-raises an [HTTPException] untouched: 400 and 413. *)
Lemma create_keeps_rejections_of_images :
  (create_health_suggestion example_strftime example_splitext_ext
     example_request "Tea" "Green" "Ann" None
     (Some {| content_type := Some "text/plain"; size := Some 10;
              filename := Some "notes.txt" |}) 7 8 Written world_bound).1
  = Raise (HTTPException 400)
  /\ (create_health_suggestion example_strftime example_splitext_ext
        example_request "Tea" "Green" "Ann" None
        (Some {| content_type := Some "image/png";
                 size := Some (3 * 1024 * 1024);
                 filename := Some "big.png" |}) 7 8 Written world_bound).1
     = Raise (HTTPException 413).
Proof. split; vm_compute; reflexivity. Qed.

(** No exception but 500 leaves [upload_image]. *)
Lemma upload_image_raises_only_500 (strftime : Z -> string -> string)
  (splitext_ext : string -> string) (image : UploadFile) (now0 : Z)
  (write_ok : write_result) (w : world) (e : exn) :
  (upload_image strftime splitext_ext image now0 write_ok w).1 = Raise e ->
  e = HTTPException 500.
Proof.
  unfold upload_image, try_except.
  match goal with |- context [match ?m w with _ => _ end] =>
    destruct (m w) as [[a|e'] w1] end; cbn; congruence.
Qed.

(** ** LIKE against substring search *)

Lemma like_chars_percent (p s : list ascii) :
  like_chars ("%"%char :: p) s
  = like_chars p s
    || match s with
       | nil => false
       | _ :: s' => like_chars ("%"%char :: p) s'
       end.
Proof. by destruct s. Qed.

Lemma like_chars_plain (c : ascii) (p s : list ascii) :
  plain_char c = true ->
  like_chars (c :: p) s
  = match s with
    | nil => false
    | d :: s' => char_eq_nocase c d && like_chars p s'
    end.
Proof.
  unfold plain_char. intros [H1 H2]%andb_true_iff.
  apply negb_true_iff in H1, H2. cbn [like_chars]. by rewrite H1, H2.
Qed.

Lemma like_chars_only_percent (s : list ascii) :
  like_chars ("%"%char :: nil) s = true.
Proof.
  induction s as [|d s IH]; [done|].
  rewrite like_chars_percent, IH. apply orb_true_r.
Qed.

Lemma like_chars_prefix (k s : list ascii) :
  forallb plain_char k = true ->
  like_chars (k ++ "%"%char :: nil) s = prefix_nocase k s.
Proof.
  revert s. induction k as [|c k IH]; intros s Hk.
  - cbn [app]. rewrite like_chars_only_percent. by destruct s.
  - cbn [forallb] in Hk. apply andb_true_iff in Hk as [Hc Hk].
    cbn [app]. rewrite (like_chars_plain _ _ _ Hc).
    destruct s as [|d s]; [done|]. cbn [prefix_nocase]. by rewrite IH.
Qed.

Lemma like_chars_occurs (k s : list ascii) :
  forallb plain_char k = true ->
  like_chars ("%"%char :: k ++ "%"%char :: nil) s = occurs_nocase k s.
Proof.
  intros Hk. induction s as [|d s IH].
  - rewrite like_chars_percent, (like_chars_prefix _ _ Hk). done.
  - rewrite like_chars_percent, (like_chars_prefix _ _ Hk), IH. done.
Qed.

Lemma list_ascii_of_string_app (a b : string) :
  list_ascii_of_string (a +:+ b)
  = (list_ascii_of_string a ++ list_ascii_of_string b)%list.
Proof. induction a as [|c a IH]; [done|]. simpl. f_equal. exact IH. Qed.

Lemma until_nul_app_free (k m : list ascii) :
  forallb (fun c => negb (Ascii.eqb c zero)) k = true ->
  until_nul (k ++ m) = (k ++ until_nul m)%list.
Proof.
  induction k as [|c k IH]; [done|]. cbn.
  intros [Hc Hk]%andb_true_iff. apply negb_true_iff in Hc. rewrite Hc.
  by rewrite IH.
Qed.

Lemma until_nul_app_cut (k m : list ascii) :
  forallb (fun c => negb (Ascii.eqb c zero)) k = false ->
  until_nul (k ++ m) = until_nul k.
Proof.
  induction k as [|c k IH]; [done|]. cbn.
  destruct (Ascii.eqb c zero); [done|]. cbn. intros Hk. by rewrite IH.
Qed.

(** What LIKE sees of the pattern the search builds. *)
Lemma pattern_seen (keyword : string) :
  until_nul (list_ascii_of_string ("%" +:+ keyword +:+ "%"))
  = "%"%char :: (if nul_free keyword
                 then list_ascii_of_string keyword ++ "%"%char :: nil
                 else seen keyword).
Proof.
  rewrite !list_ascii_of_string_app.
  change (list_ascii_of_string "%") with ("%"%char :: nil).
  cbn [app until_nul]. change (Ascii.eqb "%" zero) with false. cbn iota.
  f_equal. unfold nul_free, seen.
  destruct (forallb _ (list_ascii_of_string keyword)) eqn:Hk.
  - by rewrite (until_nul_app_free _ _ Hk).
  - by rewrite (until_nul_app_cut _ _ Hk).
Qed.

Lemma like_keyword_pattern (keyword value : string) :
  plain_keyword keyword = true ->
  nul_free keyword = true ->
  like value ("%" +:+ keyword +:+ "%") = occurs_in keyword value.
Proof.
  intros Hk Hn. unfold like, occurs_in. rewrite pattern_seen, Hn.
  by apply like_chars_occurs.
Qed.

Lemma search_where_keyword_occurs (keyword : string) (r : HealthSuggestion) :
  plain_keyword keyword = true ->
  nul_free keyword = true ->
  search_where keyword r = keyword_occurs keyword r.
Proof.
  intros Hk Hn. unfold search_where, keyword_occurs, like_null.
  rewrite !(like_keyword_pattern _ _ Hk Hn).
  destruct (tag r); [|done]. by rewrite (like_keyword_pattern _ _ Hk Hn).
Qed.

(** The matcher of the code against the meaning of a pattern. *)












Lemma utf8_bytes_app (a b : string) :
  utf8_bytes (a +:+ b) = utf8_bytes a + utf8_bytes b.
Proof.
  induction a as [|c a IH]; [done|].
  change (utf8_bytes (String c (a +:+ b))
          = utf8_bytes (String c a) + utf8_bytes b).
  cbn [utf8_bytes]. rewrite IH. lia.
Qed.

Lemma search_runs (keyword : string) (w : world) :
  utf8_bytes ("%" +:+ keyword +:+ "%") <= like_pattern_limit
  \/ health_suggestions w = nil ->
  search_health_suggestions keyword w
  = (Return (order_by_id_desc
               (List.filter (search_where keyword) (health_suggestions w))), w).
Proof.
  intros H. unfold search_health_suggestions. run_handler.
  destruct H as [H| ->]; [|done].
  rewrite bool_decide_eq_false_2 by lia. by rewrite andb_false_r.
Qed.


Lemma occurs_nocase_nil (s : list ascii) : occurs_nocase nil s = true.
Proof. by destruct s. Qed.

Lemma keyword_occurs_empty (r : HealthSuggestion) :
  keyword_occurs "" r = true.
Proof.
  unfold keyword_occurs, occurs_in. cbn [list_ascii_of_string].
  by rewrite occurs_nocase_nil.
Qed.

(** ** ORDER BY id DESC *)

Lemma insert_desc_perm (r : HealthSuggestion) (l : list HealthSuggestion) :
  Permutation (insert_desc r l) (r :: l).
Proof.
  induction l as [|x l IH]; [done|]. cbn.
  destruct (id x <=? id r); [done|].
  rewrite IH. apply perm_swap.
Qed.

Lemma order_by_id_desc_perm (l : list HealthSuggestion) :
  Permutation (order_by_id_desc l) l.
Proof.
  induction l as [|x l IH]; [done|]. cbn.
  rewrite insert_desc_perm. by constructor.
Qed.

Lemma insert_desc_sorted (r : HealthSuggestion) (l : list HealthSuggestion) :
  newest_first l -> newest_first (insert_desc r l).
Proof.
  unfold newest_first. induction 1 as [|x l Hl IH Hx]; cbn.
  - repeat constructor.
  - destruct (Z.leb_spec (id x) (id r)) as [Hle|Hlt].
    + constructor; [by constructor|].
      constructor; [done|].
      eapply Forall_impl; [exact Hx|]. cbn. intros y Hy. lia.
    + constructor; [exact IH|].
      assert (Hp : Permutation (insert_desc r l) (r :: l))
        by apply insert_desc_perm.
      rewrite Hp. constructor; [lia|exact Hx].
Qed.

Lemma order_by_id_desc_sorted (l : list HealthSuggestion) :
  newest_first (order_by_id_desc l).
Proof.
  induction l as [|x l IH]; cbn.
  - constructor.
  - by apply insert_desc_sorted.
Qed.




(** * Further properties of the handlers *)

(** ** The life of a session *)

Section SessionLife.

Variable isoformat : Z -> string.

Lemma generate_sessions u n0 n1 ok w :
  qr_sessions (generate_qr_code isoformat u n0 n1 ok w).2
  = <[u := fresh_session n0 n1]> (qr_sessions w).
Proof. unfold generate_qr_code. run_handler. by destruct ok. Qed.

Lemma generate_response u n0 n1 ok w :
  (generate_qr_code isoformat u n0 n1 ok w).1
  = Return {| resp_session_id := u;
              qr_code_data :=
                "http://16.171.135.255/confirm-login?loginId=" +:+ u;
              qr_code_image_url :=
                match ok with
                | Written => "/qr_codes/qr_code_" +:+ u +:+ ".png"
                | _ => ""
                end;
              resp_expires_at := isoformat (n0 + 300000000) |}.
Proof. unfold generate_qr_code. run_handler. by destruct ok. Qed.

Lemma confirm_page_not_found w l n0 :
  qr_sessions w !! l = None ->
  confirm_login_page l n0 w = (Return PageError, w).
Proof. intros H. unfold confirm_login_page. run_handler. by rewrite H. Qed.

Lemma confirm_page_expired w l sess n0 :
  qr_sessions w !! l = Some sess -> n0 > expires_at sess ->
  confirm_login_page l n0 w
  = (Return PageExpired, with_qr_sessions (delete l (qr_sessions w)) w).
Proof.
  intros H Hexp. unfold confirm_login_page. run_handler. rewrite H.
  by rewrite bool_decide_eq_true_2.
Qed.

Lemma confirm_page_live w l sess n0 :
  qr_sessions w !! l = Some sess -> n0 <= expires_at sess ->
  confirm_login_page l n0 w
  = (Return (PageHtml l),
     with_qr_sessions (<[l := page_session l sess]> (qr_sessions w)) w).
Proof.
  intros H Hexp. unfold confirm_login_page. run_handler. rewrite H.
  by rewrite bool_decide_eq_false_2 by lia.
Qed.

End SessionLife.

(** X1.  A session generated at [n0] is pending: nobody is logged in under
    its id, every poll up to and including [n0] plus five minutes answers
    waiting and changes nothing, and the first poll after that answers 410
    and evicts it.  This holds as well when the QR image could not be
    rendered, and when the id was in use before. *)
Theorem generated_session_lives_five_minutes (isoformat : Z -> string)
  (w : world) (u : string) (n0 n1 : Z) (qr_ok : write_result) :
  let w1 := (generate_qr_code isoformat u n0 n1 qr_ok w).2 in
  get_user_from_session w1 u = None
  /\ (forall t t', t <= n0 + 300000000 ->
        check_qr_login isoformat u t t' w1 = (Return (CheckWaiting u), w1))
  /\ (forall t t', t > n0 + 300000000 ->
        check_qr_login isoformat u t t' w1
        = (Raise (HTTPException 410),
           with_qr_sessions (delete u (qr_sessions w1)) w1)).
Proof.
  intros w1.
  assert (H : qr_sessions w1 !! u = Some (fresh_session n0 n1)).
  { subst w1. rewrite generate_sessions. apply lookup_insert_eq. }
  split; [|split].
  - unfold get_user_from_session. by rewrite H.
  - intros t t' Hle.
    rewrite (check_live isoformat w1 u (fresh_session n0 n1) t t' H); [done|].
    cbn. unfold timedelta_minutes. lia.
  - intros t t' Hgt.
    apply (check_expired isoformat w1 u (fresh_session n0 n1)); [done|].
    cbn. unfold timedelta_minutes. lia.
Qed.

Lemma generated_session_lives_five_minutes_witness :
  check_qr_login example_isoformat "s1" 300000000 300000000 world_generated
  = (Return (CheckWaiting "s1"), world_generated)
  /\ (check_qr_login example_isoformat "s1" 300000001 300000001
        world_generated).1 = Raise (HTTPException 410).
Proof.
  destruct (generated_session_lives_five_minutes example_isoformat
              empty_world "s1" 0 0 Written) as (_ & Hlive & Hdead).
  split.
  - apply Hlive. lia.
  - change world_generated
      with (generate_qr_code example_isoformat "s1" 0 0 Written empty_world).2.
    rewrite Hdead by lia. reflexivity.
Defined.

(** What a call does to the session store: nothing, the eviction of the
    session it addresses, a new record for that session (same deadline,
    bound, confirmed if it was), or a fresh session. *)
Lemma after_sessions (isoformat : Z -> string)
  (strftime : Z -> string -> string) (splitext_ext : string -> string)
  (c : call) (w : world) :
  qr_sessions (after isoformat strftime splitext_ext c w) = qr_sessions w
  \/ (exists t sess,
        call_session c = Some t /\ qr_sessions w !! t = Some sess
        /\ qr_sessions (after isoformat strftime splitext_ext c w)
           = delete t (qr_sessions w))
  \/ (exists t sess sess',
        call_session c = Some t /\ qr_sessions w !! t = Some sess
        /\ qr_sessions (after isoformat strftime splitext_ext c w)
           = <[t := sess']> (qr_sessions w)
        /\ created_at sess' = created_at sess
        /\ expires_at sess' = expires_at sess
        /\ is_bound sess' = true
        /\ (is_confirmed sess = Some true -> is_confirmed sess' = Some true)
        /\ (session_wf sess -> session_wf sess'))
  \/ (exists u n0 n1 ok,
        c = CallGenerate u n0 n1 ok
        /\ qr_sessions (after isoformat strftime splitext_ext c w)
           = <[u := fresh_session n0 n1]> (qr_sessions w)).
Proof.
  destruct c as [u n0 n1 ok|l n0|u n0 n1|r n0 n1|r n0 n1 n2|l n0 n1| | | | | ];
    cbn [after call_session].
  - right; right; right. exists u, n0, n1, ok. split; [done|].
    apply generate_sessions.
  - destruct (qr_sessions w !! l) as [sess|] eqn:H.
    + destruct (Z_le_gt_dec n0 (expires_at sess)) as [Hle|Hgt].
      * rewrite (confirm_page_live _ _ _ _ H Hle).
        right; right; left. exists l, sess, (page_session l sess).
        do 7 (split; [done|]).
        intros [_ Hc]. split; [done|]. intros Hconf.
        split; [by apply Hc|by eexists].
      * rewrite (confirm_page_expired _ _ _ _ H Hgt).
        right; left. by exists l, sess.
    + rewrite (confirm_page_not_found _ _ _ H). by left.
  - destruct (qr_sessions w !! u) as [sess|] eqn:H.
    + destruct (Z_le_gt_dec n0 (expires_at sess)) as [Hle|Hgt].
      * rewrite (check_live _ _ _ _ _ _ H Hle). by left.
      * rewrite (check_expired _ _ _ _ _ _ H Hgt).
        right; left. by exists u, sess.
    + rewrite (check_not_found _ _ _ _ _ H). by left.
  - destruct (qr_sessions w !! session_id r) as [sess|] eqn:H.
    + destruct (Z_le_gt_dec n0 (expires_at sess)) as [Hle|Hgt].
      * destruct (is_bound sess) eqn:Hb.
        -- rewrite (bind_already_bound _ _ _ _ _ _ H Hle Hb). by left.
        -- rewrite (bind_fresh _ _ _ _ _ _ H Hle Hb).
           right; right; left.
           exists (session_id r), sess, (bound_session r sess).
           do 7 (split; [done|]).
           intros [_ Hc]. split; [done|]. intros Hconf.
           split; [by apply Hc|by eexists].
      * rewrite (bind_expired _ _ _ _ _ _ H Hgt).
        right; left. by exists (session_id r), sess.
    + rewrite (bind_not_found _ _ _ _ _ H). by left.
  - destruct (qr_sessions w !! uuid r) as [sess|] eqn:H.
    + destruct (Z_le_gt_dec n0 (expires_at sess)) as [Hle|Hgt].
      * rewrite (confirm_live _ _ _ _ _ _ _ H Hle).
        right; right; left.
        exists (uuid r), sess, (confirmed_session isoformat r sess n1 n2).
        do 7 (split; [done|]).
        intros _. split; [done|]. intros _. split; by eexists.
      * rewrite (confirm_expired _ _ _ _ _ _ _ H Hgt).
        right; left. by exists (uuid r), sess.
    + rewrite (confirm_not_found _ _ _ _ _ _ H). by left.
  - destruct l as [lid|]; [|by left].
    destruct (decide (lid = "")) as [->|Hne]; [by left|].
    destruct (qr_sessions w !! lid) as [sess|] eqn:H.
    + destruct (Z_le_gt_dec n0 (expires_at sess)) as [Hle|Hgt].
      * rewrite (status_live _ _ _ _ _ _ Hne H Hle). by left.
      * rewrite (status_expired _ _ _ _ _ _ Hne H Hgt).
        right; left. by exists lid, sess.
    + rewrite (status_not_found _ _ _ _ _ Hne H). by left.
  - left. apply create_keeps_sessions.
  - left. apply update_keeps_sessions.
  - left. apply delete_keeps_sessions.
  - left. apply search_keeps_sessions.
  - left. apply upload_keeps_sessions.
Qed.

(** X2.  A call changes no session but the one it addresses: whatever the
    call and its outcome, every other session id maps to the same record,
    or to none, before and after. *)
Theorem calls_leave_other_sessions_alone (isoformat : Z -> string)
  (strftime : Z -> string -> string) (splitext_ext : string -> string)
  (c : call) (w : world) (sid : string) :
  call_session c ≠ Some sid ->
  qr_sessions (after isoformat strftime splitext_ext c w) !! sid
  = qr_sessions w !! sid.
Proof.
  intros Hother.
  destruct (after_sessions isoformat strftime splitext_ext c w)
    as [->|[(t & sess & Ht & _ & ->)|[(t & sess & sess' & Ht & _ & -> & _)
       |(u & n0 & n1 & ok & -> & ->)]]]; [done|..].
  - apply lookup_delete_ne. congruence.
  - apply lookup_insert_ne. congruence.
  - apply lookup_insert_ne. cbn in Hother. congruence.
Qed.

Lemma calls_leave_other_sessions_alone_witness :
  qr_sessions
    (after example_isoformat example_strftime example_splitext_ext
       (CallConfirm {| uuid := "s2"; doctor_id := "d" |} 1 2 3) world_bound)
    !! "s1"
  = qr_sessions world_bound !! "s1".
Proof.
  apply (calls_leave_other_sessions_alone example_isoformat example_strftime
           example_splitext_ext
           (CallConfirm {| uuid := "s2"; doctor_id := "d" |} 1 2 3)
           world_bound "s1").
  cbn. discriminate.
Defined.

(** X3.  No call but a generate with the same id changes when a session
    was created or when it expires, and none of them unbinds or
    unconfirms it: a session that is in the store before and after the
    call has the same [created_at] and [expires_at], is still bound if it
    was bound and still confirmed if it was confirmed. *)
Theorem session_deadline_is_fixed (isoformat : Z -> string)
  (strftime : Z -> string -> string) (splitext_ext : string -> string)
  (c : call) (w : world) (sid : string) (sess sess' : session) :
  is_generate c = false ->
  qr_sessions w !! sid = Some sess ->
  qr_sessions (after isoformat strftime splitext_ext c w) !! sid = Some sess' ->
  created_at sess' = created_at sess
  /\ expires_at sess' = expires_at sess
  /\ (is_bound sess = true -> is_bound sess' = true)
  /\ (is_confirmed sess = Some true -> is_confirmed sess' = Some true).
Proof.
  intros Hgen H H'.
  destruct (after_sessions isoformat strftime splitext_ext c w)
    as [Heq|[(t & s0 & Ht & _ & Heq)|[(t & s0 & s1 & Ht & Hs0 & Heq & Hc & He
       & Hb & Hconf & _)|(u & n0 & n1 & ok & -> & _)]]];
    [| | |discriminate].
  - rewrite Heq, H in H'. by injection H' as <-.
  - rewrite Heq in H'. destruct (decide (t = sid)) as [->|Hne].
    + by rewrite lookup_delete_eq in H'.
    + rewrite lookup_delete_ne, H in H' by done. by injection H' as <-.
  - rewrite Heq in H'. destruct (decide (t = sid)) as [->|Hne].
    + rewrite lookup_insert_eq in H'. injection H' as <-.
      rewrite H in Hs0. injection Hs0 as <-. done.
    + rewrite lookup_insert_ne, H in H' by done. by injection H' as <-.
Qed.

Lemma session_deadline_is_fixed_witness :
  exists sess',
    qr_sessions world_bound !! "s1" = Some sess'
    /\ expires_at sess' = 300000000 /\ created_at sess' = 0.
Proof.
  exists (bound_session example_bind_request (fresh_session 0 0)).
  split; [vm_compute; reflexivity|].
  destruct (session_deadline_is_fixed example_isoformat example_strftime
              example_splitext_ext (CallBind example_bind_request 1 1)
              world_generated "s1" (fresh_session 0 0)
              (bound_session example_bind_request (fresh_session 0 0)))
    as (Hc & He & _).
  - reflexivity.
  - vm_compute; reflexivity.
  - vm_compute; reflexivity.
  - rewrite He, Hc. split; reflexivity.
Defined.

Lemma after_session_wf (isoformat : Z -> string)
  (strftime : Z -> string -> string) (splitext_ext : string -> string)
  (c : call) (w : world) :
  map_Forall (fun _ sess => session_wf sess) (qr_sessions w) ->
  map_Forall (fun _ sess => session_wf sess)
    (qr_sessions (after isoformat strftime splitext_ext c w)).
Proof.
  intros Hw.
  destruct (after_sessions isoformat strftime splitext_ext c w)
    as [->|[(t & s0 & _ & _ & ->)|[(t & s0 & s1 & _ & Hs0 & -> & _ & _ & _
       & _ & Hwf)|(u & n0 & n1 & ok & _ & ->)]]]; [done|..].
  - by apply map_Forall_delete.
  - apply map_Forall_insert_2; [|done]. apply Hwf. exact (Hw t s0 Hs0).
  - apply map_Forall_insert_2; [|done]. by split.
Qed.

Lemma reachable_session_wf (isoformat : Z -> string)
  (strftime : Z -> string -> string) (splitext_ext : string -> string)
  (w : world) :
  reachable isoformat strftime splitext_ext w ->
  map_Forall (fun _ sess => session_wf sess) (qr_sessions w).
Proof.
  induction 1 as [w Hempty|c w _ IH].
  - rewrite Hempty. apply map_Forall_empty.
  - by apply after_session_wf.
Qed.

(** X4.  In every world the service can reach, a bound session carries a
    non-empty identity and a confirmed session carries an identity and a
    confirmation time.  Hence the resolver knows a session id exactly when
    the session is in the store and bound, and a poll never fails on a
    missing identity: [check_qr_login] returns, or raises 404 or 410. *)
Theorem reachable_sessions_are_complete (isoformat : Z -> string)
  (strftime : Z -> string -> string) (splitext_ext : string -> string)
  (w : world) :
  reachable isoformat strftime splitext_ext w ->
  (forall sid sess, qr_sessions w !! sid = Some sess -> session_wf sess)
  /\ (forall sid,
        is_Some (get_user_from_session w sid)
        <-> exists sess, qr_sessions w !! sid = Some sess
                         /\ is_bound sess = true)
  /\ (forall sid n0 n1 e,
        (check_qr_login isoformat sid n0 n1 w).1 = Raise e ->
        e = HTTPException 404 \/ e = HTTPException 410).
Proof.
  intros Hr. pose proof (reachable_session_wf _ _ _ _ Hr) as Hwf.
  split; [exact Hwf|]. split.
  - intros sid. rewrite get_user_from_session_spec.
    destruct (qr_sessions w !! sid) as [sess|] eqn:H.
    + destruct (Hwf sid sess H) as [Hb _].
      destruct (is_bound sess) eqn:Hbound.
      * rewrite (Hb eq_refl). cbn [andb]. split.
        -- intros _. by exists sess.
        -- intros _. destruct (user_info sess); [by eexists|].
           specialize (Hb eq_refl). discriminate.
      * cbn [andb]. split.
        -- by intros [? ?].
        -- intros (s & [= <-] & Hs). congruence.
    + split; [by intros [? ?]|]. by intros (s & ? & _).
  - intros sid n0 n1 e.
    destruct (qr_sessions w !! sid) as [sess|] eqn:H.
    + destruct (Z_le_gt_dec n0 (expires_at sess)) as [Hle|Hgt].
      * rewrite (check_live _ _ _ _ _ _ H Hle). cbn [fst].
        destruct (Hwf sid sess H) as [_ Hc].
        destruct (is_confirmed sess) as [[|]|] eqn:Hconf; cbn; try done.
        destruct (Hc eq_refl) as [_ [info Hi]]. by rewrite Hi.
      * rewrite (check_expired _ _ _ _ _ _ H Hgt). cbn. intros [= <-]. by right.
    + rewrite (check_not_found _ _ _ _ _ H). cbn. intros [= <-]. by left.
Qed.

Lemma reachable_sessions_are_complete_witness :
  is_Some (get_user_from_session world_bound "s1")
  /\ ~ is_Some (get_user_from_session world_generated "s1").
Proof.
  assert (Hg : reachable example_isoformat example_strftime
                 example_splitext_ext world_generated).
  { apply (reachable_call example_isoformat example_strftime
             example_splitext_ext (CallGenerate "s1" 0 0 Written) empty_world).
    apply reachable_start. reflexivity. }
  assert (Hb : reachable example_isoformat example_strftime
                 example_splitext_ext world_bound).
  { apply (reachable_call example_isoformat example_strftime
             example_splitext_ext (CallBind example_bind_request 1 1)
             world_generated Hg). }
  destruct (reachable_sessions_are_complete _ _ _ _ Hb) as (_ & Hib & _).
  destruct (reachable_sessions_are_complete _ _ _ _ Hg) as (_ & Hig & _).
  split.
  - apply Hib. eexists. split; [vm_compute; reflexivity|reflexivity].
  - intros Hs. apply Hig in Hs as (sess & Hl & Hbound).
    vm_compute in Hl. injection Hl as <-. discriminate.
Defined.

(** ** The confirmation page *)

Lemma page_identity_truthy (l : string) :
  dict_truthy (Some (page_identity l)) = true.
Proof.
  cbn. apply negb_true_iff, bool_decide_eq_false_2.
  unfold page_identity. apply insert_non_empty.
Qed.

Lemma page_identity_user_id (l : string) :
  page_identity l !! "user_id" = Some ("user_" +:+ String.substring 0 8 l).
Proof. unfold page_identity. apply lookup_insert_eq. Qed.

(** X5.  [confirm_login_page] has no guard against a session that is
    already bound: on every session that is in the store and not expired it
    returns the confirmation page and attaches the identity it synthesizes
    from the login id, replacing whatever identity was attached before.
    From then on the resolver answers with that identity, whose user id is
    the text user_ followed by the first eight characters of the login id.
    The page does not set the confirmed flag: if the session was not
    confirmed, the polls keep answering waiting. *)
Theorem confirm_page_binds_without_guard (isoformat : Z -> string)
  (w : world) (l : string) (sess : session) (n0 : Z) :
  qr_sessions w !! l = Some sess ->
  n0 <= expires_at sess ->
  let w1 := with_qr_sessions (<[l := page_session l sess]> (qr_sessions w)) w in
  confirm_login_page l n0 w = (Return (PageHtml l), w1)
  /\ get_user_from_session w1 l = Some (page_identity l)
  /\ page_identity l !! "user_id"
     = Some ("user_" +:+ String.substring 0 8 l)
  /\ (default false (is_confirmed sess) = false ->
      forall t t', t <= expires_at sess ->
        check_qr_login isoformat l t t' w1 = (Return (CheckWaiting l), w1)).
Proof.
  intros H Hle w1.
  assert (Hl : qr_sessions w1 !! l = Some (page_session l sess)).
  { subst w1. cbn. apply lookup_insert_eq. }
  split; [by apply confirm_page_live|]. split.
  { rewrite get_user_from_session_spec, Hl.
    change (user_info (page_session l sess)) with (Some (page_identity l)).
    by rewrite page_identity_truthy. }
  split; [apply page_identity_user_id|].
  intros Hc t t' Ht.
  rewrite (check_live isoformat w1 l (page_session l sess) t t' Hl Ht).
  change (is_confirmed (page_session l sess)) with (is_confirmed sess).
  by rewrite Hc.
Qed.

Lemma confirm_page_binds_without_guard_witness :
  (confirm_login_page "s1" 5 world_bound).1 = Return (PageHtml "s1")
  /\ get_user_from_session (confirm_login_page "s1" 5 world_bound).2 "s1"
     = Some (page_identity "s1")
  /\ get_user_from_session world_bound "s1"
     = Some (bound_identity example_bind_request).
Proof.
  destruct (confirm_page_binds_without_guard example_isoformat world_bound
              "s1" (bound_session example_bind_request (fresh_session 0 0)) 5)
    as (Hp & Hu & _).
  - vm_compute; reflexivity.
  - cbn; unfold timedelta_minutes; lia.
  - rewrite Hp. cbn [fst snd]. split; [reflexivity|].
    split; [exact Hu|vm_compute; reflexivity].
Defined.

(** ** Who writes the table user_sessions *)

Section UserSessions.

Variable isoformat : Z -> string.
Variable strftime : Z -> string -> string.
Variable splitext_ext : string -> string.

Lemma user_sessions_set_table rows seq :
  preserves user_sessions (set_table rows seq).
Proof. done. Qed.

Lemma create_keeps_user_sessions request title content author tag image nf np
  ok :
  preserves user_sessions
    (create_health_suggestion strftime splitext_ext request title content
       author tag image nf np ok).
Proof.
  pose proof user_sessions_set_table.
  unfold create_health_suggestion. repeat frame_step.
Qed.

Lemma update_keeps_user_sessions k request title content author tag image nf
  np rok wok :
  preserves user_sessions
    (update_health_suggestion strftime splitext_ext k request title content
       author tag image nf np rok wok).
Proof.
  pose proof user_sessions_set_table.
  unfold update_health_suggestion. repeat frame_step.
Qed.

Lemma delete_keeps_user_sessions k request rok :
  preserves user_sessions (delete_health_suggestion k request rok).
Proof.
  pose proof user_sessions_set_table.
  unfold delete_health_suggestion. repeat frame_step.
Qed.

Lemma search_keeps_user_sessions keyword :
  preserves user_sessions (search_health_suggestions keyword).
Proof. unfold search_health_suggestions. repeat frame_step. Qed.

Lemma upload_keeps_user_sessions image n0 ok :
  preserves user_sessions (upload_image strftime splitext_ext image n0 ok).
Proof. unfold upload_image. repeat frame_step. Qed.

End UserSessions.

(** X6.  The table [user_sessions] is written by a successful bind and by
    nothing else: if a call leaves the table different from how it found
    it, the call was a bind that returned success, and the table differs
    by the row of that bind, stored under the session id.  In particular
    neither [confirm_qr_login] nor [confirm_login_page] mirror the
    identity they attach. *)
Theorem user_sessions_written_by_bind_only (isoformat : Z -> string)
  (strftime : Z -> string -> string) (splitext_ext : string -> string)
  (c : call) (w : world) :
  user_sessions (after isoformat strftime splitext_ext c w) ≠ user_sessions w ->
  exists req n0 n1 sess,
    c = CallBind req n0 n1
    /\ (bind_qr_login isoformat req n0 n1 w).1 = Return BindSuccess
    /\ qr_sessions w !! session_id req = Some sess
    /\ user_sessions (after isoformat strftime splitext_ext c w)
       = <[session_id req := bound_row isoformat req sess n1]>
           (user_sessions w).
Proof.
  intros Hchanged.
  destruct c as [u n0 n1 ok|l n0|u n0 n1|r n0 n1|r n0 n1 n2|l n0 n1| | | | | ];
    cbn [after] in *.
  - exfalso. apply Hchanged. unfold generate_qr_code. run_handler.
    by destruct ok.
  - exfalso. apply Hchanged.
    destruct (qr_sessions w !! l) as [sess|] eqn:H.
    + destruct (Z_le_gt_dec n0 (expires_at sess)) as [Hle|Hgt].
      * by rewrite (confirm_page_live _ _ _ _ H Hle).
      * by rewrite (confirm_page_expired _ _ _ _ H Hgt).
    + by rewrite (confirm_page_not_found _ _ _ H).
  - exfalso. apply Hchanged.
    destruct (qr_sessions w !! u) as [sess|] eqn:H.
    + destruct (Z_le_gt_dec n0 (expires_at sess)) as [Hle|Hgt].
      * by rewrite (check_live _ _ _ _ _ _ H Hle).
      * by rewrite (check_expired _ _ _ _ _ _ H Hgt).
    + by rewrite (check_not_found _ _ _ _ _ H).
  - destruct (qr_sessions w !! session_id r) as [sess|] eqn:H.
    + destruct (Z_le_gt_dec n0 (expires_at sess)) as [Hle|Hgt].
      * destruct (is_bound sess) eqn:Hb.
        -- exfalso. apply Hchanged.
           by rewrite (bind_already_bound _ _ _ _ _ _ H Hle Hb).
        -- exists r, n0, n1, sess.
           rewrite (bind_fresh _ _ _ _ _ _ H Hle Hb). done.
      * exfalso. apply Hchanged. by rewrite (bind_expired _ _ _ _ _ _ H Hgt).
    + exfalso. apply Hchanged. by rewrite (bind_not_found _ _ _ _ _ H).
  - exfalso. apply Hchanged.
    destruct (qr_sessions w !! uuid r) as [sess|] eqn:H.
    + destruct (Z_le_gt_dec n0 (expires_at sess)) as [Hle|Hgt].
      * by rewrite (confirm_live _ _ _ _ _ _ _ H Hle).
      * by rewrite (confirm_expired _ _ _ _ _ _ _ H Hgt).
    + by rewrite (confirm_not_found _ _ _ _ _ _ H).
  - exfalso. apply Hchanged.
    destruct l as [lid|]; [|done].
    destruct (decide (lid = "")) as [->|Hne]; [done|].
    destruct (qr_sessions w !! lid) as [sess|] eqn:H.
    + destruct (Z_le_gt_dec n0 (expires_at sess)) as [Hle|Hgt].
      * by rewrite (status_live _ _ _ _ _ _ Hne H Hle).
      * by rewrite (status_expired _ _ _ _ _ _ Hne H Hgt).
    + by rewrite (status_not_found _ _ _ _ _ Hne H).
  - exfalso. apply Hchanged, create_keeps_user_sessions.
  - exfalso. apply Hchanged, update_keeps_user_sessions.
  - exfalso. apply Hchanged, delete_keeps_user_sessions.
  - exfalso. apply Hchanged, search_keeps_user_sessions.
  - exfalso. apply Hchanged, upload_keeps_user_sessions.
Qed.

Lemma user_sessions_written_by_bind_only_witness :
  exists req n0 n1,
    CallBind example_bind_request 1 1 = CallBind req n0 n1
    /\ (bind_qr_login example_isoformat req n0 n1 world_generated).1
       = Return BindSuccess.
Proof.
  destruct (user_sessions_written_by_bind_only example_isoformat
              example_strftime example_splitext_ext
              (CallBind example_bind_request 1 1) world_generated)
    as (req & n0 & n1 & sess & Hc & Hr & _).
  - intros Heq.
    apply (f_equal (fun m : gmap string user_session_row =>
                      bool_decide (m !! "s1" = None))) in Heq.
    vm_compute in Heq. discriminate.
  - exists req, n0, n1. split; [exact Hc|exact Hr].
Defined.

(** ** Writing suggestions: the paths that succeed *)

Lemma not_blank (s : string) : whitespace_only s = false -> blank s = false.
Proof.
  intros Hw. destruct (blank s) eqn:Hb; [|done].
  apply blank_iff_whitespace_only in Hb. congruence.
Qed.

Lemma id_le_max_id (rows : list HealthSuggestion) (r : HealthSuggestion) :
  In r rows -> id r <= max_id rows.
Proof.
  unfold max_id. induction rows as [|x rows IH]; [done|].
  cbn. intros [->|Hin]; [lia|]. specialize (IH Hin). lia.
Qed.

Lemma id_lt_next_id (rows : list HealthSuggestion) (seq : Z)
  (r : HealthSuggestion) :
  In r rows -> id r < next_id rows seq.
Proof. intros Hin%id_le_max_id. unfold next_id. lia. Qed.

Lemma select_by_id_app_new (rows : list HealthSuggestion)
  (row : HealthSuggestion) :
  (forall r, In r rows -> id r < id row) ->
  select_by_id (rows ++ row :: nil) (id row) = Some row.
Proof.
  intros Hlt. unfold select_by_id. induction rows as [|x rows IH]; cbn.
  - by rewrite Z.eqb_refl.
  - destruct (Z.eqb_spec (id x) (id row)) as [Heq|_].
    + specialize (Hlt x (or_introl eq_refl)). lia.
    + apply IH. intros r Hr. apply Hlt. by right.
Qed.

Lemma select_by_id_id (rows : list HealthSuggestion) (k : Z)
  (row : HealthSuggestion) :
  select_by_id rows k = Some row -> id row = k /\ In row rows.
Proof.
  unfold select_by_id. intros H. apply List.find_some in H as [Hin Heq].
  split; [by apply Z.eqb_eq|done].
Qed.

Lemma select_by_id_update (rows : list HealthSuggestion) (k k' : Z)
  title content author tag url publish :
  select_by_id (map (update_row k title content author tag url publish) rows) k'
  = update_row k title content author tag url publish <$> select_by_id rows k'.
Proof.
  unfold select_by_id. induction rows as [|x rows IH]; [done|]. cbn.
  assert (Hid : id (update_row k title content author tag url publish x)
                = id x).
  { unfold update_row. by destruct (id x =? k). }
  rewrite Hid. by destruct (id x =? k').
Qed.

Lemma select_by_id_deleted (rows : list HealthSuggestion) (k : Z) :
  select_by_id (delete_rows k rows) k = None.
Proof.
  unfold select_by_id, delete_rows. induction rows as [|x rows IH]; [done|].
  cbn. destruct (Z.eqb_spec (id x) k) as [Heq|Hne]; cbn; [done|].
  destruct (Z.eqb_spec (id x) k); [done|exact IH].
Qed.

Lemma select_by_id_delete_other (rows : list HealthSuggestion) (k k' : Z) :
  k' ≠ k ->
  select_by_id (delete_rows k rows) k' = select_by_id rows k'.
Proof.
  intros Hne. unfold select_by_id, delete_rows.
  induction rows as [|x rows IH]; [done|]. cbn.
  destruct (Z.eqb_spec (id x) k) as [Heq|Hk]; cbn.
  - destruct (Z.eqb_spec (id x) k'); [congruence|exact IH].
  - destruct (id x =? k'); [done|exact IH].
Qed.

Section SuggestionLife.

Variable strftime : Z -> string -> string.
Variable splitext_ext : string -> string.

Lemma too_large_false (image : UploadFile) (limit : Z) :
  (forall n, size image = Some n -> n <= limit) ->
  too_large image limit = false.
Proof.
  intros H. unfold too_large. destruct (size image) as [n|]; [|done].
  specialize (H n eq_refl). rewrite bool_decide_eq_false_2 by lia.
  apply andb_false_r.
Qed.


Lemma create_runs_with_image w request info uid title content author tag img
  ct nf np :
  get_user_from_request w request = Some info ->
  info !! "user_id" = Some uid ->
  whitespace_only title = false ->
  whitespace_only content = false ->
  whitespace_only author = false ->
  content_type img = Some ct ->
  startswith ct "image/" = true ->
  (forall n, size img = Some n -> n <= 2 * 1024 * 1024) ->
  next_id (health_suggestions w) (sqlite_sequence w) <= max_rowid ->
  let name := created_image_name strftime splitext_ext img nf in
  let row := created_row strftime w request uid title content author tag
               (Some ("/uploads/" +:+ name)) np in
  create_health_suggestion strftime splitext_ext request title content author
    tag (Some img) nf np Written w
  = (Return row,
     with_table (health_suggestions w ++ row :: nil) (id row)
       (with_files ({[ "uploads/" +:+ name ]} ∪ files w) w)).
Proof.
  intros Hu Hid Ht Hc Ha Hct Himg Hsize Hroom name row.
  unfold create_health_suggestion. run_handler.
  rewrite Hu, (get_user_from_request_truthy _ _ _ Hu). cbn [negb].
  rewrite (not_blank _ Ht), (not_blank _ Hc), (not_blank _ Ha).
  unfold not_an_image. rewrite Hct. run_handler. rewrite Himg. cbn [negb].
  rewrite (too_large_false _ _ Hsize).
  unfold write_file. run_handler.
  unfold subscript, getitem. rewrite Hid. run_handler.
  change (health_suggestions
            (with_files
               ({["uploads/" +:+ "health_suggestion_"
                  +:+ strftime nf "%Y%m%d_%H%M%S"
                  +:+ file_extension splitext_ext img]} ∪ files w) w))
    with (health_suggestions w).
  change (sqlite_sequence
            (with_files
               ({["uploads/" +:+ "health_suggestion_"
                  +:+ strftime nf "%Y%m%d_%H%M%S"
                  +:+ file_extension splitext_ext img]} ∪ files w) w))
    with (sqlite_sequence w).
  rewrite bool_decide_eq_false_2 by lia. reflexivity.
Qed.

Lemma release_runs (old : option string) (rok : bool) (w : world) :
  match old with
  | None => fun w0 : world => (Return tt, w0)
  | Some o =>
      if str_truthy o then remove_if_exists (lstrip_slash o) rok
      else fun w0 : world => (Return tt, w0)
  end w
  = (Return tt, released old rok w).
Proof.
  unfold released. destruct old as [o|]; [|done].
  destruct (str_truthy o); [|done]. cbn [andb].
  unfold remove_if_exists. run_handler.
  by destruct (bool_decide (lstrip_slash o ∈ files w) && rok).
Qed.

Lemma update_runs w k request info uid row title content author tag nf np
  rok wok :
  get_user_from_request w request = Some info ->
  info !! "user_id" = Some uid ->
  select_by_id (health_suggestions w) k = Some row ->
  user_id row = Some uid ->
  let publish := strftime np "%Y-%m-%d %H:%M:%S" in
  update_health_suggestion strftime splitext_ext k request title content
    author tag None nf np rok wok w
  = (Return {| id := k; title := title; content := content; author := author;
               tag := tag; image_url := image_url row;
               publish_time := publish; user_id := Some uid;
               user_ip := Some (client_ip request) |},
     with_table
       (map (update_row k title content author tag (image_url row) publish)
          (health_suggestions w)) (sqlite_sequence w) w).
Proof.
  intros Hu Hid Hrow Hown publish. unfold update_health_suggestion.
  run_handler.
  rewrite Hu, (get_user_from_request_truthy _ _ _ Hu), Hrow. cbn [negb].
  unfold subscript, getitem. rewrite Hid. run_handler.
  rewrite bool_decide_eq_true_2 by congruence. reflexivity.
Qed.

Lemma update_runs_with_image w k request info uid row title content author
  tag img nf np rok wok :
  get_user_from_request w request = Some info ->
  info !! "user_id" = Some uid ->
  select_by_id (health_suggestions w) k = Some row ->
  user_id row = Some uid ->
  let publish := strftime np "%Y-%m-%d %H:%M:%S" in
  let name := updated_image_name strftime splitext_ext k img nf in
  let w1 := released (image_url row) rok w in
  update_health_suggestion strftime splitext_ext k request title content
    author tag (Some img) nf np rok wok w
  = match wok with
    | Written =>
        (Return {| id := k; title := title; content := content;
                   author := author; tag := tag;
                   image_url := Some ("/uploads/" +:+ name);
                   publish_time := publish; user_id := Some uid;
                   user_ip := Some (client_ip request) |},
         with_table
           (map (update_row k title content author tag
                   (Some ("/uploads/" +:+ name)) publish)
              (health_suggestions w)) (sqlite_sequence w)
           (with_files ({[ "uploads/" +:+ name ]} ∪ files w1) w1))
    | NotCreated => (Raise (HTTPException 500), w1)
    | Partial =>
        (Raise (HTTPException 500),
         with_files ({[ "uploads/" +:+ name ]} ∪ files w1) w1)
    end.
Proof.
  intros Hu Hid Hrow Hown publish name w1. unfold update_health_suggestion.
  run_handler.
  rewrite Hu, (get_user_from_request_truthy _ _ _ Hu), Hrow. cbn [negb].
  unfold subscript, getitem. rewrite Hid. run_handler.
  rewrite bool_decide_eq_true_2 by congruence. cbn [negb]. cbn beta iota.
  rewrite (release_runs (image_url row) rok w). fold w1.
  unfold write_file. destruct wok; run_handler.
  - assert (Ht : health_suggestions w1 = health_suggestions w
                 /\ sqlite_sequence w1 = sqlite_sequence w).
    { subst w1. unfold released. destruct (image_url row) as [o|]; [|done].
      by destruct (str_truthy o && bool_decide (lstrip_slash o ∈ files w)
                   && rok). }
    destruct Ht as [Ht Hs]. cbn. rewrite Ht, Hs. reflexivity.
  - reflexivity.
  - reflexivity.
Qed.

Lemma delete_runs w k request info uid row rok :
  get_user_from_request w request = Some info ->
  info !! "user_id" = Some uid ->
  select_by_id (health_suggestions w) k = Some row ->
  user_id row = Some uid ->
  delete_health_suggestion k request rok w
  = (Return DeleteSuccess,
     with_table (delete_rows k (health_suggestions w)) (sqlite_sequence w)
       (released (image_url row) rok w)).
Proof.
  intros Hu Hid Hrow Hown. unfold delete_health_suggestion. run_handler.
  rewrite Hu, (get_user_from_request_truthy _ _ _ Hu), Hrow. cbn [negb].
  unfold subscript, getitem. rewrite Hid. run_handler.
  rewrite bool_decide_eq_true_2 by congruence. cbn [negb]. cbn beta iota.
  rewrite (release_runs (image_url row) rok w). cbn.
  assert (Ht : health_suggestions (released (image_url row) rok w)
               = health_suggestions w
               /\ sqlite_sequence (released (image_url row) rok w)
                  = sqlite_sequence w).
  { unfold released. destruct (image_url row) as [o|]; [|done].
    by destruct (str_truthy o && bool_decide (lstrip_slash o ∈ files w)
                 && rok). }
  destruct Ht as [-> ->]. reflexivity.
Qed.

End SuggestionLife.

(** ** What strip leaves *)








(** ** Creating a suggestion *)



(** ** Updating and deleting as the owner *)

(** X8.  The owner of a row can update it without sending an image, and
    the update checks nothing about the texts: any title, content, author
    and tag are stored as they are sent, blank or not, with no whitespace
    removed.  The stored row keeps its id, its owner, its origin address
    and its image; [get_health_suggestion] returns it afterwards.  The
    answer of the update carries the caller's address where the stored row
    keeps the address of the creation. *)
Theorem update_by_owner (strftime : Z -> string -> string)
  (splitext_ext : string -> string) (w : world) (k : Z) (request : Request)
  (info : gmap string string) (uid : string) (row : HealthSuggestion)
  (ttl cnt aut : string) (tg : option string) (nf np : Z) (rok : bool)
  (wok : write_result) :
  get_user_from_request w request = Some info ->
  info !! "user_id" = Some uid ->
  select_by_id (health_suggestions w) k = Some row ->
  user_id row = Some uid ->
  exists (answer stored : HealthSuggestion) (w1 : world),
    update_health_suggestion strftime splitext_ext k request ttl cnt aut tg
      None nf np rok wok w = (Return answer, w1)
    /\ get_health_suggestion k w1 = (Return stored, w1)
    /\ id stored = k /\ title stored = ttl /\ content stored = cnt
    /\ author stored = aut /\ tag stored = tg
    /\ image_url stored = image_url row
    /\ user_id stored = user_id row /\ user_ip stored = user_ip row
    /\ answer = {| id := k; title := ttl; content := cnt; author := aut;
                   tag := tg; image_url := image_url row;
                   publish_time := publish_time stored;
                   user_id := user_id row;
                   user_ip := Some (client_ip request) |}
    /\ files w1 = files w /\ sqlite_sequence w1 = sqlite_sequence w.
Proof.
  intros Hu Hid Hrow Hown.
  destruct (select_by_id_id _ _ _ Hrow) as [Hk _].
  set (publish := strftime np "%Y-%m-%d %H:%M:%S").
  set (stored := update_row k ttl cnt aut tg (image_url row) publish row).
  assert (Hst : stored = {| id := id row; title := ttl; content := cnt;
                            author := aut; tag := tg;
                            image_url := image_url row;
                            publish_time := publish; user_id := user_id row;
                            user_ip := user_ip row |}).
  { subst stored. unfold update_row. by rewrite Hk, Z.eqb_refl. }
  eexists _, stored, _. split.
  { by apply (update_runs _ _ _ _ _ info uid row). }
  split.
  { unfold get_health_suggestion. run_handler. cbn [health_suggestions
      with_table]. by rewrite select_by_id_update, Hrow. }
  rewrite Hst. cbn. rewrite Hown. done.
Qed.

Lemma update_by_owner_witness :
  exists (answer stored : HealthSuggestion) (w1 : world),
    update_health_suggestion example_strftime example_splitext_ext 2
      example_request " " "" "Ann" None None 7 8 true Written
      world_with_rows
    = (Return answer, w1)
    /\ get_health_suggestion 2 w1 = (Return stored, w1)
    /\ title stored = " " /\ content stored = ""
    /\ user_id stored = Some "u1".
Proof.
  destruct (update_by_owner example_strftime example_splitext_ext
              world_with_rows 2 example_request
              (bound_identity example_bind_request) "u1" second_row
              " " "" "Ann" None 7 8 true Written)
    as (answer & stored & w1 & Hup & Hget & _ & Ht & Hc & _ & _ & _ & Ho & _).
  - vm_compute; reflexivity.
  - vm_compute; reflexivity.
  - reflexivity.
  - reflexivity.
  - exists answer, stored, w1. repeat split; try done.
Defined.

(** X9.  An update that brings a new image releases the old image before it
    writes the new one.  When the write then fails, whether the new file
    could not be opened or the copy broke off, the update raises 500 and
    the table is as it was, so the row still names the old image.  The old
    file is gone, unless the copy broke off into a file of the same name:
    when the new file could not be opened, or has another name than the old
    one, the old file does not exist afterwards; when the copy broke off,
    the file under the new name is left behind. *)
Theorem update_failed_write_loses_old_image
  (strftime : Z -> string -> string) (splitext_ext : string -> string)
  (w : world) (k : Z) (request : Request) (info : gmap string string)
  (uid old : string) (row : HealthSuggestion) (ttl cnt aut : string)
  (tg : option string) (img : UploadFile) (nf np : Z) (wok : write_result) :
  get_user_from_request w request = Some info ->
  info !! "user_id" = Some uid ->
  select_by_id (health_suggestions w) k = Some row ->
  user_id row = Some uid ->
  image_url row = Some old ->
  old ≠ "" ->
  lstrip_slash old ∈ files w ->
  wok ≠ Written ->
  let path := "uploads/" +:+ updated_image_name strftime splitext_ext k img nf
  in
  exists w1 : world,
    update_health_suggestion strftime splitext_ext k request ttl cnt aut tg
      (Some img) nf np true wok w = (Raise (HTTPException 500), w1)
    /\ health_suggestions w1 = health_suggestions w
    /\ sqlite_sequence w1 = sqlite_sequence w
    /\ get_health_suggestion k w1 = (Return row, w1)
    /\ (wok = NotCreated \/ lstrip_slash old ≠ path ->
        lstrip_slash old ∉ files w1)
    /\ (wok = Partial -> path ∈ files w1).
Proof.
  intros Hu Hid Hrow Hown Hold Hne Hfile Hwok path.
  pose proof (update_runs_with_image strftime splitext_ext w k request info
                uid row ttl cnt aut tg img nf np true wok Hu Hid Hrow Hown)
    as Hrun.
  cbn zeta in Hrun. rewrite Hrun. clear Hrun.
  unfold released. rewrite Hold, (str_truthy_nonempty _ Hne).
  rewrite bool_decide_eq_true_2 by done. cbn [andb].
  destruct wok; [done| |].
  - eexists. split; [reflexivity|]. split; [done|]. split; [done|]. split.
    { unfold get_health_suggestion. run_handler. cbn [health_suggestions
        with_files]. by rewrite Hrow. }
    split; [|done]. intros _. cbn. set_solver.
  - eexists. split; [reflexivity|]. split; [done|]. split; [done|]. split.
    { unfold get_health_suggestion. run_handler. cbn [health_suggestions
        with_files]. by rewrite Hrow. }
    split.
    + intros [|Hother]; [done|]. cbn. fold path. set_solver.
    + intros _. cbn. fold path. set_solver.
Qed.

Lemma update_failed_write_loses_old_image_witness :
  exists w1 : world,
    update_health_suggestion example_strftime example_splitext_ext 3
      example_request "Tea" "Green" "Ann" None (Some example_image) 7 8
      true Partial world_with_image = (Raise (HTTPException 500), w1)
    /\ get_health_suggestion 3 w1 = (Return row_with_image, w1)
    /\ "uploads/old.png" ∉ files w1.
Proof.
  destruct (update_failed_write_loses_old_image example_strftime
              example_splitext_ext world_with_image 3 example_request
              (bound_identity example_bind_request) "u1" "/uploads/old.png"
              row_with_image "Tea" "Green" "Ann" None example_image 7 8
              Partial)
    as (w1 & Hup & _ & _ & Hget & Hgone & _).
  - vm_compute; reflexivity.
  - vm_compute; reflexivity.
  - reflexivity.
  - reflexivity.
  - reflexivity.
  - discriminate.
  - cbn. set_solver.
  - discriminate.
  - exists w1. split; [exact Hup|]. split; [exact Hget|].
    apply Hgone. right. vm_compute. discriminate.
Defined.

(** X10.  An update with a new image does not look at the content type or
    the size of the file, unlike a create: for the owner, and when the
    write goes through, it succeeds for every file.  The row then names
    the new file, whose name is made of the time, the id of the row and
    the extension; the new file exists, and the old one does not unless it
    has the same name or its removal failed. *)
Theorem update_replaces_image_unchecked (strftime : Z -> string -> string)
  (splitext_ext : string -> string) (w : world) (k : Z) (request : Request)
  (info : gmap string string) (uid : string) (row : HealthSuggestion)
  (ttl cnt aut : string) (tg : option string) (img : UploadFile) (nf np : Z)
  (rok : bool) :
  get_user_from_request w request = Some info ->
  info !! "user_id" = Some uid ->
  select_by_id (health_suggestions w) k = Some row ->
  user_id row = Some uid ->
  let name := updated_image_name strftime splitext_ext k img nf in
  exists (answer stored : HealthSuggestion) (w1 : world),
    update_health_suggestion strftime splitext_ext k request ttl cnt aut tg
      (Some img) nf np rok Written w = (Return answer, w1)
    /\ image_url answer = Some ("/uploads/" +:+ name)
    /\ get_health_suggestion k w1 = (Return stored, w1)
    /\ image_url stored = Some ("/uploads/" +:+ name)
    /\ user_id stored = user_id row
    /\ "uploads/" +:+ name ∈ files w1
    /\ (forall old, image_url row = Some old -> rok = true ->
                    lstrip_slash old ≠ "uploads/" +:+ name ->
                    old ≠ "" -> lstrip_slash old ∉ files w1).
Proof.
  intros Hu Hid Hrow Hown name.
  destruct (select_by_id_id _ _ _ Hrow) as [Hk _].
  set (publish := strftime np "%Y-%m-%d %H:%M:%S").
  set (url := Some ("/uploads/" +:+ name)).
  set (stored := update_row k ttl cnt aut tg url publish row).
  eexists _, stored, _. split.
  { by rewrite (update_runs_with_image strftime splitext_ext w k request info
                  uid row ttl cnt aut tg img nf np rok Written Hu Hid Hrow
                  Hown). }
  split; [done|]. split.
  { unfold get_health_suggestion. run_handler. cbn [health_suggestions
      with_table]. by rewrite select_by_id_update, Hrow. }
  assert (Hst : stored = {| id := id row; title := ttl; content := cnt;
                            author := aut; tag := tg; image_url := url;
                            publish_time := publish; user_id := user_id row;
                            user_ip := user_ip row |}).
  { subst stored. unfold update_row. by rewrite Hk, Z.eqb_refl. }
  rewrite Hst. split; [done|]. split; [done|]. split.
  { cbn. set_solver. }
  intros old Hold -> Hother Hne. cbn [files with_table with_files].
  unfold released. rewrite Hold, (str_truthy_nonempty _ Hne). cbn [andb].
  rewrite andb_true_r. case_bool_decide as Hin; cbn; set_solver.
Qed.

Lemma update_replaces_image_unchecked_witness :
  exists (answer : HealthSuggestion) (w1 : world),
    update_health_suggestion example_strftime example_splitext_ext 3
      example_request "Tea" "Green" "Ann" None
      (Some {| content_type := Some "text/plain";
               size := Some (50 * 1024 * 1024);
               filename := Some "notes.txt" |}) 7 8 true Written
      world_with_image = (Return answer, w1)
    /\ "uploads/old.png" ∉ files w1.
Proof.
  destruct (update_replaces_image_unchecked example_strftime
              example_splitext_ext world_with_image 3 example_request
              (bound_identity example_bind_request) "u1" row_with_image
              "Tea" "Green" "Ann" None
              {| content_type := Some "text/plain";
                 size := Some (50 * 1024 * 1024);
                 filename := Some "notes.txt" |} 7 8 true)
    as (answer & stored & w1 & Hup & _ & _ & _ & _ & _ & Hold).
  - vm_compute; reflexivity.
  - vm_compute; reflexivity.
  - reflexivity.
  - reflexivity.
  - exists answer, w1. split; [exact Hup|].
    apply (Hold "/uploads/old.png"); [reflexivity|reflexivity| |discriminate].
    vm_compute. discriminate.
Defined.

Lemma delete_rows_in (rows : list HealthSuggestion) (k : Z)
  (r : HealthSuggestion) :
  In r (delete_rows k rows) <-> In r rows /\ id r ≠ k.
Proof.
  unfold delete_rows. rewrite List.filter_In.
  destruct (Z.eqb_spec (id r) k); cbn; intuition congruence.
Qed.

(** X11.  The owner of a row can delete it.  The row is then gone and every
    other row is still there; the id counter is as before; a read or a
    second delete of that id raises 404.  When the row names an image that
    is on disk, the file is removed if the removal goes through; if it
    does not, the delete succeeds all the same and the file stays. *)
Theorem delete_by_owner (w : world) (k : Z) (request : Request)
  (info : gmap string string) (uid : string) (row : HealthSuggestion)
  (rok rok' : bool) :
  get_user_from_request w request = Some info ->
  info !! "user_id" = Some uid ->
  select_by_id (health_suggestions w) k = Some row ->
  user_id row = Some uid ->
  exists w1 : world,
    delete_health_suggestion k request rok w = (Return DeleteSuccess, w1)
    /\ (forall r, In r (health_suggestions w1)
                  <-> In r (health_suggestions w) /\ id r ≠ k)
    /\ sqlite_sequence w1 = sqlite_sequence w
    /\ get_health_suggestion k w1 = (Raise (HTTPException 404), w1)
    /\ delete_health_suggestion k request rok' w1
       = (Raise (HTTPException 404), w1)
    /\ (forall old, image_url row = Some old -> old ≠ "" ->
                    if rok then lstrip_slash old ∉ files w1
                    else files w1 = files w).
Proof.
  intros Hu Hid Hrow Hown.
  set (w1 := with_table (delete_rows k (health_suggestions w))
               (sqlite_sequence w) (released (image_url row) rok w)).
  exists w1. split; [by apply (delete_runs w k request info uid row)|].
  split; [intros r; apply delete_rows_in|]. split; [done|].
  assert (Hsel : select_by_id (health_suggestions w1) k = None)
    by apply select_by_id_deleted.
  split.
  { unfold get_health_suggestion. run_handler. by rewrite Hsel. }
  split.
  { assert (Hq : qr_sessions w1 = qr_sessions w).
    { subst w1. unfold released. cbn. destruct (image_url row) as [o|]; [|done].
      by destruct (str_truthy o && bool_decide (lstrip_slash o ∈ files w)
                   && rok). }
    assert (Hu1 : get_user_from_request w1 request = Some info).
    { rewrite <- Hu. unfold get_user_from_request, get_user_from_session.
      by rewrite Hq. }
    unfold delete_health_suggestion. run_handler.
    by rewrite Hu1, (get_user_from_request_truthy _ _ _ Hu1), Hsel. }
  intros old Hold Hne. subst w1. cbn [files with_table]. unfold released.
  rewrite Hold, (str_truthy_nonempty _ Hne). cbn [andb].
  destruct rok.
  - rewrite andb_true_r. case_bool_decide as Hin; cbn; set_solver.
  - by rewrite andb_false_r.
Qed.

Lemma delete_by_owner_witness :
  exists w1 : world,
    delete_health_suggestion 3 example_request true world_with_image
    = (Return DeleteSuccess, w1)
    /\ get_health_suggestion 3 w1 = (Raise (HTTPException 404), w1)
    /\ "uploads/old.png" ∉ files w1.
Proof.
  destruct (delete_by_owner world_with_image 3 example_request
              (bound_identity example_bind_request) "u1" row_with_image
              true true) as (w1 & Hd & _ & _ & Hg & _ & Hf).
  - vm_compute; reflexivity.
  - vm_compute; reflexivity.
  - reflexivity.
  - reflexivity.
  - exists w1. split; [exact Hd|]. split; [exact Hg|].
    apply (Hf "/uploads/old.png"); [reflexivity|discriminate].
Defined.

(** ** Callers without the right to write *)

(** X12.  A request without the header, with an empty header, with the id
    of no session, or with the id of a session that is not bound, is
    answered 401 by create, update and delete, and nothing changes.  The
    login is checked first: the answer is 401 also when the fields of the
    create are blank and when the row of the update or delete is
    missing. *)
Theorem anonymous_writes_are_rejected (strftime : Z -> string -> string)
  (splitext_ext : string -> string) (w : world) (request : Request)
  (k : Z) (ttl cnt aut : string) (tg : option string)
  (image : option UploadFile) (nf np : Z) (rok : bool) (wok : write_result) :
  (x_session_id request = None
   \/ x_session_id request = Some ""
   \/ exists sid, x_session_id request = Some sid
                  /\ (qr_sessions w !! sid = None
                      \/ exists sess, qr_sessions w !! sid = Some sess
                                      /\ is_bound sess = false)) ->
  create_health_suggestion strftime splitext_ext request ttl cnt aut tg image
    nf np wok w = (Raise (HTTPException 401), w)
  /\ update_health_suggestion strftime splitext_ext k request ttl cnt aut tg
       image nf np rok wok w = (Raise (HTTPException 401), w)
  /\ delete_health_suggestion k request rok w
     = (Raise (HTTPException 401), w).
Proof.
  intros Hanon.
  assert (Hu : get_user_from_request w request = None).
  { unfold get_user_from_request.
    destruct Hanon as [->|[->|(sid & -> & Hs)]]; [done|done|].
    destruct (str_truthy sid); [|done]. cbn [negb].
    unfold get_user_from_session.
    destruct Hs as [->|(sess & -> & ->)]; done. }
  unfold create_health_suggestion, update_health_suggestion,
    delete_health_suggestion. run_handler. by rewrite Hu.
Qed.

Lemma anonymous_writes_are_rejected_witness :
  delete_health_suggestion 1 example_request true
    (with_table (foreign_row :: nil) 1 world_generated)
  = (Raise (HTTPException 401),
     with_table (foreign_row :: nil) 1 world_generated).
Proof.
  destruct (anonymous_writes_are_rejected example_strftime
              example_splitext_ext
              (with_table (foreign_row :: nil) 1 world_generated)
              example_request 1 "" "" "" None None 7 8 true Written)
    as (_ & _ & Hd).
  - right; right. exists "s1". split; [reflexivity|]. right.
    exists (fresh_session 0 0). split; [vm_compute; reflexivity|reflexivity].
  - exact Hd.
Defined.

Lemma confirmed_identity_has_no_user_id (isoformat : Z -> string)
  (req : QRConfirmRequest) (n2 : Z) :
  confirmed_identity isoformat req n2 !! "user_id" = None.
Proof.
  unfold confirmed_identity.
  rewrite lookup_insert_ne by done. rewrite lookup_insert_ne by done.
  apply lookup_empty.
Qed.

(** X13.  The identity [confirm_qr_login] attaches has a doctor id and a
    login time but no user id, which the three writing handlers read.  So
    with the session of a successful confirm in the header, the resolver
    does return the identity, but a create with valid fields raises 500 and
    inserts nothing, and an update or a delete of any existing row ends in
    a KeyError, whoever owns the row. *)
Theorem confirmed_login_cannot_write (isoformat : Z -> string)
  (strftime : Z -> string -> string) (splitext_ext : string -> string)
  (w : world) (sid d : string) (sess : session) (n0 n1 n2 : Z)
  (host : option string) (k : Z) (ttl cnt aut : string) (tg : option string)
  (nf np : Z) (rok : bool) (wok : write_result) :
  sid ≠ "" ->
  qr_sessions w !! sid = Some sess ->
  n0 <= expires_at sess ->
  let creq := {| uuid := sid; doctor_id := d |} in
  let w1 := (confirm_qr_login isoformat creq n0 n1 n2 w).2 in
  let request := {| x_session_id := Some sid; client_host := host |} in
  get_user_from_request w1 request
  = Some (confirmed_identity isoformat creq n2)
  /\ (whitespace_only ttl = false -> whitespace_only cnt = false ->
      whitespace_only aut = false ->
      create_health_suggestion strftime splitext_ext request ttl cnt aut tg
        None nf np wok w1 = (Raise (HTTPException 500), w1))
  /\ (forall row, select_by_id (health_suggestions w) k = Some row ->
        update_health_suggestion strftime splitext_ext k request ttl cnt aut
          tg None nf np rok wok w1 = (Raise (KeyError "user_id"), w1)
        /\ delete_health_suggestion k request rok w1
           = (Raise (KeyError "user_id"), w1)).
Proof.
  intros Hne H Hle creq w1 request.
  assert (Hw1 : w1 = with_qr_sessions
                       (<[sid := confirmed_session isoformat creq sess n1 n2]>
                          (qr_sessions w)) w).
  { subst w1. by rewrite (confirm_live isoformat w creq sess n0 n1 n2 H Hle). }
  assert (Htruthy : dict_truthy (Some (confirmed_identity isoformat creq n2))
                    = true).
  { cbn. apply negb_true_iff, bool_decide_eq_false_2.
    unfold confirmed_identity. apply insert_non_empty. }
  assert (Hu : get_user_from_request w1 request
               = Some (confirmed_identity isoformat creq n2)).
  { unfold get_user_from_request. cbn [x_session_id request].
    rewrite (str_truthy_nonempty _ Hne). cbn [negb].
    rewrite get_user_from_session_spec, Hw1. cbn [qr_sessions with_qr_sessions].
    rewrite lookup_insert_eq.
    change (user_info (confirmed_session isoformat creq sess n1 n2))
      with (Some (confirmed_identity isoformat creq n2)).
    by rewrite Htruthy. }
  assert (Hrows : health_suggestions w1 = health_suggestions w)
    by (by rewrite Hw1).
  split; [exact Hu|]. split.
  - intros Ht Hc Ha. unfold create_health_suggestion. run_handler.
    rewrite Hu, Htruthy. cbn [negb].
    rewrite (not_blank _ Ht), (not_blank _ Hc), (not_blank _ Ha).
    unfold subscript, getitem.
    by rewrite confirmed_identity_has_no_user_id.
  - intros row Hrow. rewrite <- Hrows in Hrow.
    unfold update_health_suggestion, delete_health_suggestion. run_handler.
    rewrite Hu, Htruthy, Hrow. cbn [negb]. unfold subscript, getitem.
    by rewrite confirmed_identity_has_no_user_id.
Qed.

Lemma confirmed_login_cannot_write_witness :
  create_health_suggestion example_strftime example_splitext_ext
    example_request "Tea" "Green" "Ann" None None 7 8 Written world_confirmed
  = (Raise (HTTPException 500), world_confirmed).
Proof.
  destruct (confirmed_login_cannot_write example_isoformat example_strftime
              example_splitext_ext world_generated "s1" "d1"
              (fresh_session 0 0) 1 2 3 (Some "10.0.0.7") 1 "Tea" "Green"
              "Ann" None 7 8 true Written) as (_ & Hc & _).
  - discriminate.
  - vm_compute; reflexivity.
  - cbn; unfold timedelta_minutes; lia.
  - apply Hc; reflexivity.
Defined.

(** X14.  The user id the confirmation page synthesizes depends on the
    first eight characters of the login id only.  So a caller whose session
    went through the page can delete the suggestion of another caller whose
    login id starts with the same eight characters. *)
Theorem page_identities_collide (w : world) (l1 l2 : string)
  (sess2 : session) (host : option string) (k : Z) (row : HealthSuggestion)
  (rok : bool) :
  String.substring 0 8 l2 = String.substring 0 8 l1 ->
  l2 ≠ "" ->
  qr_sessions w !! l2 = Some sess2 ->
  is_bound sess2 = true ->
  user_info sess2 = Some (page_identity l2) ->
  select_by_id (health_suggestions w) k = Some row ->
  user_id row = page_identity l1 !! "user_id" ->
  (delete_health_suggestion k {| x_session_id := Some l2;
                                 client_host := host |} rok w).1
  = Return DeleteSuccess.
Proof.
  intros Hpre Hne H2 Hb Hi Hrow Hown.
  assert (Hu : get_user_from_request w
                 {| x_session_id := Some l2; client_host := host |}
               = Some (page_identity l2)).
  { unfold get_user_from_request. cbn [x_session_id].
    rewrite (str_truthy_nonempty _ Hne). cbn [negb].
    rewrite get_user_from_session_spec, H2, Hb, Hi.
    by rewrite page_identity_truthy. }
  rewrite (delete_runs w k _ (page_identity l2)
             ("user_" +:+ String.substring 0 8 l2) row rok Hu); [done| |done|].
  - apply page_identity_user_id.
  - rewrite Hown, page_identity_user_id. by rewrite Hpre.
Qed.

Lemma page_identities_collide_witness :
  (delete_health_suggestion 1
     {| x_session_id := Some "abcdefgh-2"; client_host := None |} true
     (with_table
        ({| id := 1; title := "Tea"; content := "Green"; author := "Ann";
            tag := None; image_url := None; publish_time := "t";
            user_id := Some "user_abcdefgh";
            user_ip := None |} :: nil) 1
        (confirm_login_page "abcdefgh-2" 1
           (generate_qr_code example_isoformat "abcdefgh-2" 0 0 Written
              empty_world).2).2)).1
  = Return DeleteSuccess.
Proof.
  apply (page_identities_collide _ "abcdefgh-1" "abcdefgh-2"
           (page_session "abcdefgh-2" (fresh_session 0 0)) None 1
           {| id := 1; title := "Tea"; content := "Green"; author := "Ann";
              tag := None; image_url := None; publish_time := "t";
              user_id := Some "user_abcdefgh"; user_ip := None |} true).
  - reflexivity.
  - discriminate.
  - vm_compute; reflexivity.
  - reflexivity.
  - reflexivity.
  - reflexivity.
  - vm_compute; reflexivity.
Defined.

(** ** Listing, and searching with wildcards *)

Lemma like_percent (s : string) : like s "%%%" = true.
Proof.
  unfold like.
  change (until_nul (list_ascii_of_string "%%%"))
    with ("%"%char :: "%"%char :: "%"%char :: nil).
  generalize (until_nul (list_ascii_of_string s)). intros l.
  rewrite like_chars_percent.
  assert (H : like_chars ("%"%char :: "%"%char :: nil) l = true).
  { rewrite like_chars_percent, like_chars_only_percent. done. }
  by rewrite H.
Qed.

Lemma like_underscore (s : string) : like s "%_%" = visible s.
Proof.
  unfold like, visible, seen.
  change (until_nul (list_ascii_of_string "%_%"))
    with ("%"%char :: "_"%char :: "%"%char :: nil).
  destruct (until_nul (list_ascii_of_string s)) as [|c l]; [reflexivity|].
  rewrite like_chars_percent.
  assert (H : like_chars ("_"%char :: "%"%char :: nil) (c :: l) = true).
  { change (like_chars ("%"%char :: nil) l = true).
    apply like_chars_only_percent. }
  by rewrite H.
Qed.

Lemma filter_all {A} (f : A -> bool) (l : list A) :
  (forall x, f x = true) -> List.filter f l = l.
Proof.
  intros Hf. induction l as [|x l IH]; [done|].
  cbn. rewrite Hf. by f_equal.
Qed.

(** X15.  The list endpoint returns every row of the table once, highest
    id first, and changes nothing.  The search returns the very same list
    for the empty keyword and for the keyword [%]; for the keyword [_] it
    returns the rows in which the title, the content, the author or the
    tag has a first character, and that character is not NUL (the search
    reads a text up to its first NUL, so a text that starts with NUL counts
    as empty). *)
Theorem list_and_wildcard_searches (w : world) :
  exists all : list HealthSuggestion,
    get_health_suggestions w = (Return all, w)
    /\ Permutation all (health_suggestions w)
    /\ newest_first all
    /\ search_health_suggestions "" w = (Return all, w)
    /\ search_health_suggestions "%" w = (Return all, w)
    /\ search_health_suggestions "_" w
       = (Return (order_by_id_desc
                    (List.filter has_text (health_suggestions w))), w).
Proof.
  exists (order_by_id_desc (health_suggestions w)).
  split; [reflexivity|]. split; [apply order_by_id_desc_perm|].
  split; [apply order_by_id_desc_sorted|].
  rewrite !search_runs by (left; vm_compute; discriminate).
  split; [|split].
  - rewrite filter_all; [done|]. intros r.
    rewrite search_where_keyword_occurs by done. apply keyword_occurs_empty.
  - rewrite filter_all; [done|]. intros r. unfold search_where.
    change ("%" +:+ "%" +:+ "%") with "%%%". by rewrite like_percent.
  - do 3 f_equal. apply List.filter_ext. intros r.
    unfold search_where, has_text, like_null.
    change ("%" +:+ "_" +:+ "%") with "%_%". rewrite !like_underscore.
    destruct (tag r); [|done]. by rewrite like_underscore.
Qed.

(** ** Uploading an image *)

(** X16.  [upload_image] asks for no login.  A file whose content type
    starts with image/ and whose size is unknown or at most 10MB is stored
    under a name made of the time and the extension of the file's name, and
    the answer names it; nothing else changes.  When the write fails, the
    answer is 500: nothing changes when the file could not be opened, and
    when the copy broke off the file under that name is left behind and
    nothing else changes. *)
Theorem upload_image_accepts (strftime : Z -> string -> string)
  (splitext_ext : string -> string) (w : world) (image : UploadFile)
  (ct : string) (now0 : Z) :
  content_type image = Some ct ->
  startswith ct "image/" = true ->
  (forall n, size image = Some n -> n <= 10 * 1024 * 1024) ->
  let name := "upload_" +:+ strftime now0 "%Y%m%d_%H%M%S"
                +:+ file_extension splitext_ext image in
  upload_image strftime splitext_ext image now0 Written w
  = (Return {| up_image_url := "/uploads/" +:+ name; up_filename := name |},
     with_files ({[ "uploads/" +:+ name ]} ∪ files w) w)
  /\ upload_image strftime splitext_ext image now0 NotCreated w
     = (Raise (HTTPException 500), w)
  /\ upload_image strftime splitext_ext image now0 Partial w
     = (Raise (HTTPException 500),
        with_files ({[ "uploads/" +:+ name ]} ∪ files w) w).
Proof.
  intros Hct Himg Hsize name. unfold upload_image, not_an_image.
  rewrite Hct. run_handler. rewrite Himg. cbn [negb].
  rewrite (too_large_false _ _ Hsize). by repeat split.
Qed.

Lemma upload_image_accepts_witness :
  upload_image example_strftime example_splitext_ext
    {| content_type := Some "image/png"; size := Some (10 * 1024 * 1024);
       filename := None |} 7 Written empty_world
  = (Return {| up_image_url := "/uploads/upload_7.jpg";
               up_filename := "upload_7.jpg" |},
     with_files {[ "uploads/upload_7.jpg" ]} empty_world).
Proof.
  destruct (upload_image_accepts example_strftime example_splitext_ext
              empty_world
              {| content_type := Some "image/png";
                 size := Some (10 * 1024 * 1024); filename := None |}
              "image/png" 7) as (Hok & _).
  - reflexivity.
  - reflexivity.
  - intros n [= <-]. lia.
  - rewrite Hok. f_equal.
Defined.

(** ** The ids of the table *)

Section Steps.

Variable R : world -> world -> Prop.
Hypothesis R_refl : forall w, R w w.
Hypothesis R_trans : forall w1 w2 w3, R w1 w2 -> R w2 w3 -> R w1 w3.

Lemma steps_ret {A} (a : A) : steps_by R (ret a).
Proof. intros w. apply R_refl. Qed.

Lemma steps_raise {A} (e : exn) : steps_by R (@raise A e).
Proof. intros w. apply R_refl. Qed.

Lemma steps_get_world : steps_by R get_world.
Proof. intros w. apply R_refl. Qed.

Lemma steps_bind {A B} (m : handler A) (k : A -> handler B) :
  steps_by R m -> (forall a, steps_by R (k a)) -> steps_by R (m ≫= k).
Proof.
  intros Hm Hk w. unfold mbind, handler_bind, bind.
  specialize (Hm w). destruct (m w) as [[a|e] w1]; cbn [snd] in *.
  - eapply R_trans; [exact Hm|apply Hk].
  - exact Hm.
Qed.

Lemma steps_try_except {A} (m : handler A) (h : exn -> handler A) :
  steps_by R m -> (forall e, steps_by R (h e)) -> steps_by R (try_except m h).
Proof.
  intros Hm Hh w. unfold try_except.
  specialize (Hm w). destruct (m w) as [[a|e] w1]; cbn [snd] in *.
  - exact Hm.
  - eapply R_trans; [exact Hm|apply Hh].
Qed.

Lemma steps_when_raise c e : steps_by R (when_raise c e).
Proof. destruct c; intros w; apply R_refl. Qed.

Lemma steps_subscript d k : steps_by R (subscript d k).
Proof.
  unfold subscript, getitem. destruct d as [m|]; [|intros w; apply R_refl].
  destruct (m !! k); intros w; apply R_refl.
Qed.

Lemma steps_not_an_image image : steps_by R (not_an_image image).
Proof.
  unfold not_an_image. destruct (content_type image); intros w; apply R_refl.
Qed.

Lemma steps_reraise_http e : steps_by R (reraise_http e).
Proof. destruct e; intros w; apply R_refl. Qed.

Hypothesis R_files : forall fs w, R w (with_files fs w).
Hypothesis R_sessions : forall m w, R w (with_qr_sessions m w).
Hypothesis R_user_sessions : forall m w, R w (with_user_sessions m w).

Lemma steps_set_files f : steps_by R (set_files f).
Proof. intros w. apply R_files. Qed.

Lemma steps_set_qr_sessions f : steps_by R (set_qr_sessions f).
Proof. intros w. apply R_sessions. Qed.

Lemma steps_set_user_sessions f : steps_by R (set_user_sessions f).
Proof. intros w. apply R_user_sessions. Qed.

Lemma steps_write_file path ok : steps_by R (write_file path ok).
Proof.
  destruct ok; [apply steps_set_files|apply steps_raise|].
  apply steps_bind; [apply steps_set_files|intros _; apply steps_raise].
Qed.

Lemma steps_remove_if_exists path ok : steps_by R (remove_if_exists path ok).
Proof.
  intros w. unfold remove_if_exists. run_handler.
  destruct (bool_decide (path ∈ files w) && ok); [apply R_files|apply R_refl].
Qed.

End Steps.

Lemma table_step_refl (w : world) : table_step w w.
Proof. split; [lia|done]. Qed.

Lemma table_step_trans (w1 w2 w3 : world) :
  table_step w1 w2 -> table_step w2 w3 -> table_step w1 w3.
Proof. intros [H1 H1'] [H2 H2']. split; [lia|auto]. Qed.

Lemma table_step_same (w w' : world) :
  health_suggestions w' = health_suggestions w ->
  sqlite_sequence w' = sqlite_sequence w ->
  table_step w w'.
Proof.
  intros Hr Hs. unfold table_step, table_ok. rewrite Hr, Hs. split; [lia|done].
Qed.

Lemma table_step_insert (w1 : world) (row : HealthSuggestion) :
  id row = next_id (health_suggestions w1) (sqlite_sequence w1) ->
  table_step w1 (with_table (health_suggestions w1 ++ row :: nil) (id row) w1).
Proof.
  intros Hid.
  assert (Hseq : sqlite_sequence w1 < id row)
    by (rewrite Hid; unfold next_id; lia).
  assert (Hlt : forall r, In r (health_suggestions w1) -> id r < id row).
  { intros r Hr. rewrite Hid. by apply id_lt_next_id. }
  split; [change (sqlite_sequence w1 <= id row); lia|].
  intros [Hnd Hle].
  change (NoDup (map id (health_suggestions w1 ++ row :: nil))
          /\ Forall (fun r => id r <= id row)
               (health_suggestions w1 ++ row :: nil)).
  split.
  - rewrite map_app. apply NoDup_app. split; [done|]. split.
    + intros x Hx [<-|[]]%list_elem_of_In.
      apply list_elem_of_In, List.in_map_iff in Hx as (r & Hr & Hin).
      apply Hlt in Hin. lia.
    + apply NoDup_singleton.
  - apply Forall_app. split.
    + apply Forall_forall. intros r Hr%list_elem_of_In%Hlt. lia.
    + constructor; [lia|constructor].
Qed.

Lemma table_step_update (w1 : world) k title content author tag url publish :
  table_step w1
    (with_table
       (map (update_row k title content author tag url publish)
          (health_suggestions w1)) (sqlite_sequence w1) w1).
Proof.
  assert (Hid : forall x,
             id (update_row k title content author tag url publish x) = id x).
  { intros x. unfold update_row. by destruct (id x =? k). }
  unfold table_step, table_ok. cbn. split; [lia|]. intros [Hnd Hle]. split.
  - rewrite map_map. erewrite map_ext; [exact Hnd|]. exact Hid.
  - apply Forall_map. eapply Forall_impl; [exact Hle|]. cbn.
    intros x Hx. by rewrite Hid.
Qed.

Lemma table_step_delete (w1 : world) k :
  table_step w1
    (with_table (delete_rows k (health_suggestions w1)) (sqlite_sequence w1)
       w1).
Proof.
  unfold table_step, table_ok, delete_rows. cbn. split; [lia|].
  intros [Hnd Hle]. split.
  - induction (health_suggestions w1) as [|x l IH]; [done|].
    cbn in *. apply NoDup_cons in Hnd as [Hx Hnd].
    apply Forall_cons in Hle as [_ Hle].
    destruct (negb (id x =? k)); [|by apply IH]. cbn. apply NoDup_cons.
    split; [|by apply IH].
    intros Hin. apply Hx. apply list_elem_of_In in Hin.
    apply List.in_map_iff in Hin as (r & Hr & Hin).
    apply List.filter_In in Hin as [Hin _].
    apply list_elem_of_In, List.in_map_iff. by exists r.
  - clear Hnd. induction Hle as [|x l Hx Hl IH]; [constructor|].
    cbn. destruct (negb (id x =? k)); [by constructor|done].
Qed.

Ltac steps_step :=
  match goal with
  | |- steps_by table_step (ret _) => apply steps_ret, table_step_refl
  | |- steps_by table_step (raise _) => apply steps_raise, table_step_refl
  | |- steps_by table_step get_world =>
      apply steps_get_world, table_step_refl
  | |- steps_by table_step (when_raise _ _) =>
      apply steps_when_raise, table_step_refl
  | |- steps_by table_step (subscript _ _) =>
      apply steps_subscript, table_step_refl
  | |- steps_by table_step (not_an_image _) =>
      apply steps_not_an_image, table_step_refl
  | |- steps_by table_step (reraise_http _) =>
      apply steps_reraise_http, table_step_refl
  | |- steps_by table_step (write_file _ _) =>
      apply steps_write_file;
      [apply table_step_refl|apply table_step_trans
      |intros; by apply table_step_same]
  | |- steps_by table_step (remove_if_exists _ _) =>
      apply steps_remove_if_exists;
      [apply table_step_refl|intros; by apply table_step_same]
  | |- steps_by table_step (set_files _) =>
      apply steps_set_files; intros; by apply table_step_same
  | |- steps_by table_step (set_qr_sessions _) =>
      apply steps_set_qr_sessions; intros; by apply table_step_same
  | |- steps_by table_step (set_user_sessions _) =>
      apply steps_set_user_sessions; intros; by apply table_step_same
  | |- steps_by table_step (get_world ≫= _) =>
      solve [intros ?; run_handler;
             first [apply table_step_update | apply table_step_delete
                   | case_bool_decide;
                     [apply table_step_refl|by apply table_step_insert]]]
  | |- steps_by table_step (_ ≫= _) =>
      apply (steps_bind _ table_step_trans); [|intros ?]
  | |- steps_by table_step (try_except _ _) =>
      apply (steps_try_except _ table_step_trans); [|intros ?]
  | |- steps_by table_step (match ?x with _ => _ end) => destruct x
  | |- steps_by table_step (let _ := _ in _) => cbn zeta
  end.

Section TableSteps.

Variable isoformat : Z -> string.
Variable strftime : Z -> string -> string.
Variable splitext_ext : string -> string.

Lemma generate_table_step u n0 n1 ok :
  steps_by table_step (generate_qr_code isoformat u n0 n1 ok).
Proof. unfold generate_qr_code. repeat steps_step. Qed.

Lemma confirm_page_table_step l n0 :
  steps_by table_step (confirm_login_page l n0).
Proof. unfold confirm_login_page. repeat steps_step. Qed.

Lemma check_table_step u n0 n1 :
  steps_by table_step (check_qr_login isoformat u n0 n1).
Proof. unfold check_qr_login. repeat steps_step. Qed.

Lemma bind_table_step r n0 n1 :
  steps_by table_step (bind_qr_login isoformat r n0 n1).
Proof. unfold bind_qr_login. repeat steps_step. Qed.

Lemma confirm_table_step r n0 n1 n2 :
  steps_by table_step (confirm_qr_login isoformat r n0 n1 n2).
Proof. unfold confirm_qr_login. repeat steps_step. Qed.

Lemma status_table_step l n0 n1 :
  steps_by table_step (get_qr_login_status isoformat l n0 n1).
Proof. unfold get_qr_login_status. repeat steps_step. Qed.

Lemma create_table_step request title content author tag image nf np ok :
  steps_by table_step
    (create_health_suggestion strftime splitext_ext request title content
       author tag image nf np ok).
Proof. unfold create_health_suggestion. repeat steps_step. Qed.

Lemma update_table_step k request title content author tag image nf np rok
  wok :
  steps_by table_step
    (update_health_suggestion strftime splitext_ext k request title content
       author tag image nf np rok wok).
Proof. unfold update_health_suggestion. repeat steps_step. Qed.

Lemma delete_table_step k request rok :
  steps_by table_step (delete_health_suggestion k request rok).
Proof. unfold delete_health_suggestion. repeat steps_step. Qed.

Lemma search_table_step keyword :
  steps_by table_step (search_health_suggestions keyword).
Proof. unfold search_health_suggestions. repeat steps_step. Qed.

Lemma upload_table_step image n0 ok :
  steps_by table_step (upload_image strftime splitext_ext image n0 ok).
Proof. unfold upload_image. repeat steps_step. Qed.

Lemma after_table_step (c : call) (w : world) :
  table_step w (after isoformat strftime splitext_ext c w).
Proof.
  destruct c; cbn [after].
  - apply generate_table_step.
  - apply confirm_page_table_step.
  - apply check_table_step.
  - apply bind_table_step.
  - apply confirm_table_step.
  - apply status_table_step.
  - apply create_table_step.
  - apply update_table_step.
  - apply delete_table_step.
  - apply search_table_step.
  - apply upload_table_step.
Qed.

Lemma after_all_table_step (cs : list call) (w : world) :
  table_step w (after_all isoformat strftime splitext_ext cs w).
Proof.
  unfold after_all. revert w. induction cs as [|c cs IH]; intros w; cbn.
  - apply table_step_refl.
  - eapply table_step_trans; [apply after_table_step|apply IH].
Qed.

End TableSteps.

(** X17.  The table keeps its ids apart and never hands one out again.
    If the ids of the table are pairwise different and none is above the
    id counter, this is still so after any sequence of calls, the counter
    has not gone down, and the id the next insert would get is above the
    id of every row the table had at the start, whether that row is still
    there or has been deleted in between. *)
Theorem ids_are_never_reused (isoformat : Z -> string)
  (strftime : Z -> string -> string) (splitext_ext : string -> string)
  (cs : list call) (w : world) :
  table_ok w ->
  let w' := after_all isoformat strftime splitext_ext cs w in
  table_ok w'
  /\ sqlite_sequence w <= sqlite_sequence w'
  /\ (forall r, In r (health_suggestions w) ->
                id r < next_id (health_suggestions w') (sqlite_sequence w')).
Proof.
  intros Hok w'.
  destruct (after_all_table_step isoformat strftime splitext_ext cs w)
    as [Hseq Hkeep].
  split; [by apply Hkeep|]. split; [exact Hseq|].
  intros r Hr. destruct Hok as [_ Hle].
  rewrite Forall_forall in Hle. specialize (Hle r).
  assert (id r <= sqlite_sequence w) by (apply Hle; by apply list_elem_of_In).
  unfold next_id. subst w'. lia.
Qed.

Lemma ids_are_never_reused_witness :
  id row_with_image
  < next_id
      (health_suggestions
         (after_all example_isoformat example_strftime example_splitext_ext
            (CallDelete 3 example_request true :: nil) world_with_image))
      (sqlite_sequence
         (after_all example_isoformat example_strftime example_splitext_ext
            (CallDelete 3 example_request true :: nil) world_with_image))
  /\ select_by_id
       (health_suggestions
          (after_all example_isoformat example_strftime example_splitext_ext
             (CallDelete 3 example_request true :: nil) world_with_image)) 3
     = None.
Proof.
  destruct (ids_are_never_reused example_isoformat example_strftime
              example_splitext_ext (CallDelete 3 example_request true :: nil)
              world_with_image) as (_ & _ & Hnew).
  - split.
    + cbn. repeat constructor; cbn; set_solver.
    + cbn. repeat constructor; cbn; lia.
  - split; [|vm_compute; reflexivity].
    apply (Hnew row_with_image). right; right; left. reflexivity.
Defined.

(** ** Images stored in the same second *)

Lemma max_id_snoc (rows : list HealthSuggestion) (r : HealthSuggestion) :
  max_id (rows ++ r :: nil) = Z.max (max_id rows) (Z.max (id r) 0).
Proof.
  unfold max_id. induction rows as [|x rows IH]; cbn; [lia|].
  rewrite IH. lia.
Qed.

Lemma select_by_id_app_old (rows extra : list HealthSuggestion) (k : Z)
  (row : HealthSuggestion) :
  select_by_id rows k = Some row ->
  select_by_id (rows ++ extra) k = Some row.
Proof.
  unfold select_by_id. induction rows as [|x rows IH]; [done|]. cbn.
  destruct (id x =? k); [done|exact IH].
Qed.

(** X18.  The file name of the image of a new suggestion is made of the
    second of the upload and the extension only.  Two creates whose images
    get the same name both succeed, as long as two more ids are left below
    the largest row id of the database, and their rows name the same file,
    the second write replacing the first.  When the first row is then deleted,
    the file is removed with it, and the second row, which is still in the
    table, names a file that no longer exists. *)
Theorem same_second_images_share_a_file (strftime : Z -> string -> string)
  (splitext_ext : string -> string) (w : world) (request : Request)
  (info : gmap string string) (uid t1 c1 a1 t2 c2 a2 : string)
  (tg1 tg2 : option string) (img1 img2 : UploadFile) (ct1 ct2 : string)
  (nf1 nf2 np1 np2 : Z) :
  get_user_from_request w request = Some info ->
  info !! "user_id" = Some uid ->
  whitespace_only t1 = false -> whitespace_only c1 = false ->
  whitespace_only a1 = false ->
  whitespace_only t2 = false -> whitespace_only c2 = false ->
  whitespace_only a2 = false ->
  content_type img1 = Some ct1 -> startswith ct1 "image/" = true ->
  (forall n, size img1 = Some n -> n <= 2 * 1024 * 1024) ->
  content_type img2 = Some ct2 -> startswith ct2 "image/" = true ->
  (forall n, size img2 = Some n -> n <= 2 * 1024 * 1024) ->
  created_image_name strftime splitext_ext img2 nf2
  = created_image_name strftime splitext_ext img1 nf1 ->
  next_id (health_suggestions w) (sqlite_sequence w) < max_rowid ->
  let path := "uploads/" +:+ created_image_name strftime splitext_ext img1 nf1 in
  exists (row1 row2 : HealthSuggestion) (w1 w2 w3 : world),
    create_health_suggestion strftime splitext_ext request t1 c1 a1 tg1
      (Some img1) nf1 np1 Written w = (Return row1, w1)
    /\ create_health_suggestion strftime splitext_ext request t2 c2 a2 tg2
         (Some img2) nf2 np2 Written w1 = (Return row2, w2)
    /\ id row1 < id row2
    /\ image_url row1 = Some ("/" +:+ path)
    /\ image_url row2 = Some ("/" +:+ path)
    /\ path ∈ files w2
    /\ delete_health_suggestion (id row1) request true w2
       = (Return DeleteSuccess, w3)
    /\ get_health_suggestion (id row2) w3 = (Return row2, w3)
    /\ path ∉ files w3.
Proof.
  intros Hu Hid Ht1 Hc1 Ha1 Ht2 Hc2 Ha2 Hct1 Hi1 Hs1 Hct2 Hi2 Hs2 Hname Hroom
    path.
  set (name := created_image_name strftime splitext_ext img1 nf1) in *.
  set (row1 := created_row strftime w request uid t1 c1 a1 tg1
                 (Some ("/uploads/" +:+ name)) np1).
  set (w1 := with_table (health_suggestions w ++ row1 :: nil) (id row1)
               (with_files ({[ "uploads/" +:+ name ]} ∪ files w) w)).
  set (row2 := created_row strftime w1 request uid t2 c2 a2 tg2
                 (Some ("/uploads/" +:+ name)) np2).
  set (w2 := with_table (health_suggestions w1 ++ row2 :: nil) (id row2)
               (with_files ({[ "uploads/" +:+ name ]} ∪ files w1) w1)).
  set (w3 := with_table (delete_rows (id row1) (health_suggestions w2))
               (sqlite_sequence w2) (released (image_url row1) true w2)).
  assert (Hlt1 : forall r, In r (health_suggestions w) -> id r < id row1).
  { intros r Hr. by apply id_lt_next_id. }
  assert (Hlt2 : forall r, In r (health_suggestions w1) -> id r < id row2).
  { intros r Hr. by apply id_lt_next_id. }
  assert (H12 : id row1 < id row2).
  { apply Hlt2. subst w1. cbn. apply in_or_app. right. by left. }
  assert (Hroom1 : next_id (health_suggestions w) (sqlite_sequence w)
                   <= max_rowid) by lia.
  assert (Hroom2 : next_id (health_suggestions w1) (sqlite_sequence w1)
                   <= max_rowid).
  { subst w1. cbn [health_suggestions sqlite_sequence with_table with_files].
    change (id row1) with (next_id (health_suggestions w) (sqlite_sequence w)).
    revert Hroom. unfold next_id. rewrite max_id_snoc.
    change (id row1) with (next_id (health_suggestions w) (sqlite_sequence w)).
    unfold next_id, max_rowid. lia. }
  exists row1, row2, w1, w2, w3.
  split.
  { by apply (create_runs_with_image strftime splitext_ext w request info uid
                t1 c1 a1 tg1 img1 ct1 nf1 np1). }
  split.
  { rewrite (create_runs_with_image strftime splitext_ext w1 request info uid
               t2 c2 a2 tg2 img2 ct2 nf2 np2 Hu Hid Ht2 Hc2 Ha2 Hct2 Hi2 Hs2
               Hroom2).
    cbn zeta. by rewrite Hname. }
  split; [exact H12|]. split; [reflexivity|]. split; [reflexivity|].
  split; [subst w2 path; cbn; set_solver|].
  assert (Hsel1 : select_by_id (health_suggestions w2) (id row1) = Some row1).
  { subst w2. cbn [health_suggestions with_table].
    apply select_by_id_app_old. subst w1. cbn [health_suggestions with_table
      with_files]. by apply select_by_id_app_new. }
  split.
  { by apply (delete_runs w2 (id row1) request info uid row1 true). }
  split.
  { unfold get_health_suggestion. run_handler.
    subst w3. cbn [health_suggestions with_table].
    rewrite select_by_id_delete_other by lia.
    subst w2. cbn [health_suggestions with_table].
    by rewrite (select_by_id_app_new _ _ Hlt2). }
  subst w3. cbn [files with_table]. unfold released.
  change (image_url row1) with (Some ("/uploads/" +:+ name)).
  cbn beta iota.
  change (lstrip_slash ("/uploads/" +:+ name)) with path.
  change (str_truthy ("/uploads/" +:+ name)) with true.
  assert (Hin : path ∈ files w2) by (subst w2 path; cbn; set_solver).
  rewrite bool_decide_eq_true_2 by done. cbn. set_solver.
Qed.

Lemma same_second_images_share_a_file_witness :
  exists (row1 row2 : HealthSuggestion) (w1 w2 w3 : world),
    create_health_suggestion example_strftime example_splitext_ext
      example_request "Tea" "Green" "Ann" None (Some example_image) 7 7
      Written world_bound = (Return row1, w1)
    /\ create_health_suggestion example_strftime example_splitext_ext
         example_request "Rest" "Sleep" "Ann" None (Some example_image) 7 7
         Written w1 = (Return row2, w2)
    /\ delete_health_suggestion (id row1) example_request true w2
       = (Return DeleteSuccess, w3)
    /\ get_health_suggestion (id row2) w3 = (Return row2, w3)
    /\ image_url row2 = Some "/uploads/health_suggestion_7.png"
    /\ "uploads/health_suggestion_7.png" ∉ files w3.
Proof.
  destruct (same_second_images_share_a_file example_strftime
              example_splitext_ext world_bound example_request
              (bound_identity example_bind_request) "u1" "Tea" "Green" "Ann"
              "Rest" "Sleep" "Ann" None None example_image example_image
              "image/png" "image/png" 7 7 7 7)
    as (row1 & row2 & w1 & w2 & w3 & H1 & H2 & _ & _ & Hurl & _ & Hd & Hg
        & Hgone).
  - vm_compute; reflexivity.
  - vm_compute; reflexivity.
  - reflexivity.
  - reflexivity.
  - reflexivity.
  - reflexivity.
  - reflexivity.
  - reflexivity.
  - reflexivity.
  - reflexivity.
  - intros n [= <-]. lia.
  - reflexivity.
  - reflexivity.
  - intros n [= <-]. lia.
  - reflexivity.
  - vm_compute; reflexivity.
  - exists row1, row2, w1, w2, w3. repeat split; assumption.
Defined.

(** ** Images a create turns down *)

(** X19.  For a logged-in caller with valid texts, a create that brings a
    file is turned down, with no row inserted and no id used up, in four
    cases: 400 when the content type does not start with image/, 413 when
    the size is above 2MB, 500 when the file has no content type at all,
    and 500 when the type and the size are fine but the write fails.  In
    the first three cases nothing changes at all.  In the last one nothing
    changes when the file could not be opened; when the copy broke off, the
    file under the new name is left behind and nothing else changes. *)
Theorem create_turns_down_images (strftime : Z -> string -> string)
  (splitext_ext : string -> string) (w : world) (request : Request)
  (info : gmap string string) (ttl cnt aut : string) (tg : option string)
  (img : UploadFile) (nf np : Z) (wok : write_result) :
  get_user_from_request w request = Some info ->
  whitespace_only ttl = false ->
  whitespace_only cnt = false ->
  whitespace_only aut = false ->
  let create ok :=
    create_health_suggestion strftime splitext_ext request ttl cnt aut tg
      (Some img) nf np ok w in
  (forall ct, content_type img = Some ct -> startswith ct "image/" = false ->
     create wok = (Raise (HTTPException 400), w))
  /\ (forall ct n, content_type img = Some ct ->
        startswith ct "image/" = true ->
        size img = Some n -> n > 2 * 1024 * 1024 ->
        create wok = (Raise (HTTPException 413), w))
  /\ (content_type img = None ->
      create wok = (Raise (HTTPException 500), w))
  /\ (forall ct, content_type img = Some ct ->
        startswith ct "image/" = true ->
        (forall n, size img = Some n -> n <= 2 * 1024 * 1024) ->
        create NotCreated = (Raise (HTTPException 500), w)
        /\ create Partial
           = (Raise (HTTPException 500),
              with_files
                ({[ "uploads/"
                    +:+ created_image_name strftime splitext_ext img nf ]}
                 ∪ files w) w)).
Proof.
  intros Hu Ht Hc Ha create.
  subst create. cbn beta.
  unfold create_health_suggestion. run_handler.
  rewrite Hu, (get_user_from_request_truthy _ _ _ Hu). cbn [negb].
  rewrite (not_blank _ Ht), (not_blank _ Hc), (not_blank _ Ha).
  unfold not_an_image. split; [|split; [|split]].
  - intros ct Hct Hno. rewrite Hct. run_handler. by rewrite Hno.
  - intros ct n Hct Hyes Hsize Hbig. rewrite Hct. run_handler.
    rewrite Hyes. cbn [negb]. unfold too_large. rewrite Hsize.
    rewrite bool_decide_eq_true_2 by lia.
    destruct (Z.eqb_spec n 0) as [Hz|_]; [lia|reflexivity].
  - intros Hct. by rewrite Hct.
  - intros ct Hct Hyes Hsize. rewrite Hct. run_handler.
    rewrite Hyes. cbn [negb]. by rewrite (too_large_false _ _ Hsize).
Qed.

Lemma create_turns_down_images_witness :
  create_health_suggestion example_strftime example_splitext_ext
    example_request "Tea" "Green" "Ann" None
    (Some {| content_type := Some "image/png";
             size := Some (2 * 1024 * 1024 + 1);
             filename := Some "big.png" |}) 7 8 Written world_bound
  = (Raise (HTTPException 413), world_bound).
Proof.
  destruct (create_turns_down_images example_strftime example_splitext_ext
              world_bound example_request
              (bound_identity example_bind_request) "Tea" "Green" "Ann" None
              {| content_type := Some "image/png";
                 size := Some (2 * 1024 * 1024 + 1);
                 filename := Some "big.png" |} 7 8 Written)
    as (_ & Hbig & _).
  - vm_compute; reflexivity.
  - reflexivity.
  - reflexivity.
  - reflexivity.
  - apply (Hbig "image/png" (2 * 1024 * 1024 + 1)); reflexivity.
Defined.

(** ** A table that has run out of ids *)

(** X20.  When the id the next insert would get is above the largest row
    id, 2^63 - 1, the database refuses the insert, and a create of a
    logged-in caller with valid texts answers 500; no row is inserted and
    the counter stays.  Without an image nothing changes at all.  With an
    image that passes the checks and is written, the file stays on disk
    although no suggestion names it. *)
Theorem create_refuses_when_ids_run_out (strftime : Z -> string -> string)
  (splitext_ext : string -> string) (w : world) (request : Request)
  (info : gmap string string) (uid ttl cnt aut : string)
  (tg : option string) (nf np : Z) (wok : write_result) :
  get_user_from_request w request = Some info ->
  info !! "user_id" = Some uid ->
  whitespace_only ttl = false ->
  whitespace_only cnt = false ->
  whitespace_only aut = false ->
  next_id (health_suggestions w) (sqlite_sequence w) > max_rowid ->
  create_health_suggestion strftime splitext_ext request ttl cnt aut tg None
    nf np wok w = (Raise (HTTPException 500), w)
  /\ (forall img ct,
        content_type img = Some ct ->
        startswith ct "image/" = true ->
        (forall n, size img = Some n -> n <= 2 * 1024 * 1024) ->
        create_health_suggestion strftime splitext_ext request ttl cnt aut tg
          (Some img) nf np Written w
        = (Raise (HTTPException 500),
           with_files
             ({[ "uploads/"
                 +:+ created_image_name strftime splitext_ext img nf ]}
              ∪ files w) w)).
Proof.
  intros Hu Hid Ht Hc Ha Hfull. split.
  - unfold create_health_suggestion. run_handler.
    rewrite Hu, (get_user_from_request_truthy _ _ _ Hu). cbn [negb].
    rewrite (not_blank _ Ht), (not_blank _ Hc), (not_blank _ Ha).
    unfold subscript, getitem. rewrite Hid. run_handler.
    rewrite bool_decide_eq_true_2 by lia. reflexivity.
  - intros img ct Hct Himg Hsize.
    unfold create_health_suggestion. run_handler.
    rewrite Hu, (get_user_from_request_truthy _ _ _ Hu). cbn [negb].
    rewrite (not_blank _ Ht), (not_blank _ Hc), (not_blank _ Ha).
    unfold not_an_image. rewrite Hct. run_handler. rewrite Himg. cbn [negb].
    rewrite (too_large_false _ _ Hsize).
    unfold write_file. run_handler.
    unfold subscript, getitem. rewrite Hid. run_handler.
    change (health_suggestions
              (with_files
                 ({["uploads/" +:+ "health_suggestion_"
                    +:+ strftime nf "%Y%m%d_%H%M%S"
                    +:+ file_extension splitext_ext img]} ∪ files w) w))
      with (health_suggestions w).
    change (sqlite_sequence
              (with_files
                 ({["uploads/" +:+ "health_suggestion_"
                    +:+ strftime nf "%Y%m%d_%H%M%S"
                    +:+ file_extension splitext_ext img]} ∪ files w) w))
      with (sqlite_sequence w).
    rewrite bool_decide_eq_true_2 by lia. reflexivity.
Qed.

Lemma create_refuses_when_ids_run_out_witness :
  create_health_suggestion example_strftime example_splitext_ext
    example_request "Tea" "Green" "Ann" None None 7 8 Written
    world_at_last_id
  = (Raise (HTTPException 500), world_at_last_id)
  /\ create_health_suggestion example_strftime example_splitext_ext
       example_request "Tea" "Green" "Ann" None (Some example_image) 7 8
       Written world_at_last_id
     = (Raise (HTTPException 500),
        with_files ({[ "uploads/health_suggestion_7.png" ]}
                    ∪ files world_at_last_id) world_at_last_id).
Proof.
  destruct (create_refuses_when_ids_run_out example_strftime
              example_splitext_ext world_at_last_id example_request
              (bound_identity example_bind_request) "u1" "Tea" "Green" "Ann"
              None 7 8 Written) as (Hplain & Himage).
  - vm_compute; reflexivity.
  - vm_compute; reflexivity.
  - reflexivity.
  - reflexivity.
  - reflexivity.
  - vm_compute; reflexivity.
  - split; [exact Hplain|].
    apply (Himage example_image "image/png"); [reflexivity|reflexivity|].
    intros n [= <-]. lia.
Defined.
